(** * gen-p5-example: the example-site generator of go-p5

    A shallow embedding of [cmd/gen-p5-example/main.go].  The program is a
    linear script over the operating system: it creates a temporary
    directory, clones the example sources, compiles every example to
    WASM, writes one HTML page per example and a root index page.

    Every call that leaves the process (files, directories, child
    processes) is a field of a [Host]; [gen] is written in a small monad
    that threads the host state, records the calls with their results in
    a trace, and stops at [log.Fatalf] as [os.Exit 1] does: deferred calls
    do not run.  The theorems hold for every host. *)

From Stdlib Require Import String Ascii List Bool Arith Lia.
Import ListNotations.
Open Scope list_scope.
Open Scope string_scope.

Set Implicit Arguments.

(** ** Text *)

Definition nl : string := String "010" "".
Definition tab : string := String "009" "".
Definition dq : string := String "034" "".
Definition slash : ascii := "/"%char.

Definition isSlash (c : ascii) : bool := Ascii.eqb c slash.

(** [strings.HasPrefix] and [strings.HasSuffix]. *)
Fixpoint HasPrefix (s p : string) : bool :=
  match p, s with
  | EmptyString, _ => true
  | String _ _, EmptyString => false
  | String b p', String a s' => Ascii.eqb a b && HasPrefix s' p'
  end.

Fixpoint HasSuffix (s p : string) : bool :=
  match s with
  | EmptyString => String.eqb p ""
  | String _ s' => String.eqb s p || HasSuffix s' p
  end.

(** The number of positions of [s] at which [sub] starts. *)
Fixpoint occurrences (sub s : string) : nat :=
  (if HasPrefix s sub then 1 else 0)
  + match s with
    | EmptyString => 0
    | String _ s' => occurrences sub s'
    end.


(** The two text functions of Go's library whose result depends on the
    Unicode tables: [strconv.Quote], behind the verb [%q], and
    [strings.TrimSpace].  They are an interface here; [asciiText] below
    implements them for ASCII text. *)
Class Text := {
  Quote : string -> string;
  TrimSpace : string -> string
}.

(** ** fmt.Sprintf

    The directives this program uses: [%s], [%v], [%+v] and [%q] on
    strings and errors (an error is printed as its [Error()] text), and
    [%%].  A directive without an operand prints [%!v(MISSING)], a lone
    [%] at the end [%!(NOVERB)], operands left over [%!(EXTRA ...)], as
    fmt does. *)

Definition missing (verb : string) : string := "%!" ++ verb ++ "(MISSING)".

Definition extra (args : list string) : string :=
  match args with
  | [] => ""
  | _ => "%!(EXTRA " ++ String.concat ", " (map (fun a => "string=" ++ a) args) ++ ")"
  end.

Section Fmt.
Context {T : Text}.

Definition operand (render : string -> string) (verb : string)
    (args : list string) (k : list string -> string) : string :=
  match args with
  | [] => missing verb ++ k []
  | a :: args' => render a ++ k args'
  end.

Fixpoint format (f : string) (args : list string) : string :=
  match f with
  | EmptyString => extra args
  | String "%" EmptyString => "%!(NOVERB)"
  | String "%" (String "%" f') => "%" ++ format f' args
  | String "%" (String "s" f') => operand (fun a => a) "s" args (format f')
  | String "%" (String "v" f') => operand (fun a => a) "v" args (format f')
  | String "%" (String "+" (String "v" f')) =>
      operand (fun a => a) "v" args (format f')
  | String "%" (String "q" f') => operand Quote "q" args (format f')
  | String c f' => String c (format f' args)
  end.

Definition Sprintf (f : string) (args : list string) : string := format f args.
End Fmt.

(** ** path/filepath, with [/] as the separator *)

(** The elements of a path between its separators; never the empty list. *)
Fixpoint elements (path : string) : list string :=
  match path with
  | EmptyString => [""]
  | String c rest =>
      if isSlash c then "" :: elements rest
      else match elements rest with
           | e :: es => String c e :: es
           | [] => [String c ""]
           end
  end.

(** One element of [filepath.Clean]'s scan; [out] is the cleaned path so
    far, last element first. *)
Definition cleanElement (rooted : bool) (out : list string) (e : string)
    : list string :=
  if String.eqb e "" || String.eqb e "." then out
  else if String.eqb e ".." then
    match out with
    | top :: below => if String.eqb top ".." then e :: out else below
    | [] => if rooted then [] else [e]
    end
  else e :: out.

Definition Clean (path : string) : string :=
  if String.eqb path "" then "."
  else
    let rooted := HasPrefix path "/" in
    let out := String.concat "/" (rev (fold_left (cleanElement rooted) (elements path) [])) in
    if rooted then "/" ++ out
    else if String.eqb out "" then "." else out.

(** [filepath.Join]: leading empty elements are dropped, the rest joined
    by the separator and cleaned. *)
Fixpoint Join (elem : list string) : string :=
  match elem with
  | [] => ""
  | e :: rest => if String.eqb e "" then Join rest else Clean (String.concat "/" elem)
  end.

Fixpoint trimSlashes (path : string) : string :=
  match path with
  | EmptyString => ""
  | String c rest =>
      let r := trimSlashes rest in
      if isSlash c && String.eqb r "" then "" else String c r
  end.

(** [filepath.Base]. *)
Definition Base (path : string) : string :=
  if String.eqb path "" then "."
  else
    let b := last (elements (trimSlashes path)) "" in
    if String.eqb b "" then "/" else b.

Fixpoint noSlash (s : string) : bool :=
  match s with
  | EmptyString => true
  | String c s' => negb (isSlash c) && noSlash s'
  end.

(** The name of a directory entry, as [os.ReadDir] returns them: not
    empty, without a separator, and neither [.] nor [..]. *)
Definition entryName (n : string) : bool :=
  negb (String.eqb n "") && negb (String.eqb n ".") && negb (String.eqb n "..")
  && noSlash n.

(** ** The page templates *)

Definition indexHTML : string :=
  nl
  ++ "<!doctype html>" ++ nl
  ++ "<!--" ++ nl
  ++ "Copyright 2018 The Go Authors. All rights reserved." ++ nl
  ++ "Use of this source code is governed by a BSD-style" ++ nl
  ++ "license that can be found in the LICENSE file." ++ nl
  ++ "-->" ++ nl
  ++ "<html>" ++ nl
  ++ nl
  ++ "<head>" ++ nl
  ++ "        <meta charset=" ++ dq ++ "utf-8" ++ dq ++ ">" ++ nl
  ++ "        <title>%s</title>" ++ nl
  ++ "</head>" ++ nl
  ++ nl
  ++ "<body>" ++ nl
  ++ "        <!--" ++ nl
  ++ "        Add the following polyfill for Microsoft Edge 17/18 support:" ++ nl
  ++ "        <script src=" ++ dq ++ "https://cdn.jsdelivr.net/npm/text-encoding@0.7.0/lib/encoding.min.js" ++ dq ++ "></script>" ++ nl
  ++ "        (see https://caniuse.com/#feat=textencoder)" ++ nl
  ++ "        -->" ++ nl
  ++ tab ++ tab ++ "<script src=" ++ dq ++ "https://go-p5.github.io/assets/wasm_exec.js" ++ dq ++ "></script>" ++ nl
  ++ "        <script>" ++ nl
  ++ "                if (!WebAssembly.instantiateStreaming) { // polyfill" ++ nl
  ++ "                        WebAssembly.instantiateStreaming = async (resp, importObject) => {" ++ nl
  ++ "                                const source = await (await resp).arrayBuffer();" ++ nl
  ++ "                                return await WebAssembly.instantiate(source, importObject);" ++ nl
  ++ "                        };" ++ nl
  ++ "                }" ++ nl
  ++ nl
  ++ "                const go = new Go();" ++ nl
  ++ "                let mod, inst;" ++ nl
  ++ "                WebAssembly.instantiateStreaming(fetch(" ++ dq ++ "%s" ++ dq ++ "), go.importObject).then((result) => {" ++ nl
  ++ "                        mod = result.module;" ++ nl
  ++ "                        inst = result.instance;" ++ nl
  ++ "                        document.getElementById(" ++ dq ++ "runButton" ++ dq ++ ").disabled = false;" ++ nl
  ++ "                }).catch((err) => {" ++ nl
  ++ "                        console.error(err);" ++ nl
  ++ "                });" ++ nl
  ++ nl
  ++ "                async function run() {" ++ nl
  ++ "                        console.clear();" ++ nl
  ++ "                        await go.run(inst);" ++ nl
  ++ "                        inst = await WebAssembly.instantiate(mod, go.importObject); // reset instance" ++ nl
  ++ "                }" ++ nl
  ++ "        </script>" ++ nl
  ++ nl
  ++ "        <button onClick=" ++ dq ++ "run();" ++ dq ++ " id=" ++ dq ++ "runButton" ++ dq ++ " disabled>Run</button>" ++ nl
  ++ "</body>" ++ nl
  ++ nl
  ++ "</html>" ++ nl.

Definition rootHeader : string :=
  nl
  ++ "<!doctype html>" ++ nl
  ++ "<html>" ++ nl
  ++ "<head>" ++ nl
  ++ "        <meta charset=" ++ dq ++ "utf-8" ++ dq ++ ">" ++ nl
  ++ "        <title>Go-P5</title>" ++ nl
  ++ "</head>" ++ nl
  ++ nl
  ++ "<body>" ++ nl
  ++ "<h2>Welcome to the Go-P5 examples page (version=%s)</h2>" ++ nl
  ++ "This page shows a few <code>go-p5</code> examples, compiled to <code>WASM</code>." ++ nl
  ++ nl
  ++ "<ul>" ++ nl.

Definition rootFooter : string :=
  nl
  ++ "</ul>" ++ nl
  ++ "</body>" ++ nl
  ++ nl
  ++ "</html>" ++ nl.

(** ** The host *)

(** An error value, by its [Error()] text. *)
Definition error := string.

(** [exec.Cmd]: the program and its arguments, the directory it runs in
    ([""] is the caller's), its environment ([None] is Go's nil slice:
    the caller's environment) and whether its output goes to the caller's
    terminal. *)
Record Cmd := {
  Name : string;
  Args : list string;
  Dir : string;
  Env : option (list string);
  Stdio : bool
}.

Definition Command (name : string) (args : list string) : Cmd :=
  {| Name := name; Args := args; Dir := ""; Env := None; Stdio := false |}.

(** The calls of the program that leave the process.  Every one of them
    may fail and may change the host's state in any way. *)
Record Host (S : Type) := {
  MkdirTemp : string -> string -> S -> (string + error) * S;
  Run : Cmd -> S -> option error * S;
  CombinedOutput : Cmd -> S -> (string * option error) * S;
  ReadFile : string -> S -> (string + error) * S;
  WriteFile : string -> string -> nat -> S -> option error * S;
  MkdirAll : string -> nat -> S -> option error * S;
  ReadDir : string -> S -> (list string + error) * S;
  RemoveAll : string -> S -> option error * S;
  Environ : list string;
  GOROOT : string
}.

(** A call with what it returned; [EvLog] is a line [log] wrote. *)
Inductive Event :=
| EvMkdirTemp (dir pattern : string) (r : string + error)
| EvRun (c : Cmd) (r : option error)
| EvCombinedOutput (c : Cmd) (r : string * option error)
| EvReadFile (path : string) (r : string + error)
| EvWriteFile (path data : string) (perm : nat) (r : option error)
| EvMkdirAll (path : string) (perm : nat) (r : option error)
| EvReadDir (path : string) (r : list string + error)
| EvRemoveAll (path : string) (r : option error)
| EvLog (line : string).

(** How a computation ends: it returns, or the process exits. *)
Inductive Outcome (A : Type) :=
| Returned (a : A)
| Exited (code : nat).
Arguments Exited {A} code.

(** [var excludes]: the example directories that are skipped. *)
Definition excludes : list string := ["sketch"; "wasm-p5-ex"].

Definition excluded (name : string) : bool := existsb (String.eqb name) excludes.

(** [log.SetPrefix("gen-p5: ")], [log.SetFlags(0)]: a line of the log is
    the prefix, the message, and a newline unless the message ends in one. *)
Definition logLine (msg : string) : string :=
  "gen-p5: " ++ msg ++ (if HasSuffix msg nl then "" else nl).

Section Program.
Context {T : Text} {S : Type} (H : Host S).

Definition M (A : Type) : Type := S -> Outcome A * S * list Event.

Definition ret {A} (a : A) : M A := fun s => (Returned a, s, []).

Definition bind {A B} (m : M A) (k : A -> M B) : M B :=
  fun s =>
    match m s with
    | (Returned a, s1, t1) =>
        match k a s1 with
        | (o, s2, t2) => (o, s2, (t1 ++ t2)%list)
        end
    | (Exited code, s1, t1) => (Exited code, s1, t1)
    end.

Definition call {A} (op : S -> A * S) (ev : A -> Event) : M A :=
  fun s => let (a, s') := op s in (Returned a, s', [ev a]).

(** The host's calls, each recorded with its result. *)
Definition os_MkdirTemp (dir pattern : string) : M (string + error) :=
  call (MkdirTemp H dir pattern) (EvMkdirTemp dir pattern).
Definition cmd_Run (c : Cmd) : M (option error) :=
  call (Run H c) (EvRun c).
Definition cmd_CombinedOutput (c : Cmd) : M (string * option error) :=
  call (CombinedOutput H c) (EvCombinedOutput c).
Definition os_ReadFile (path : string) : M (string + error) :=
  call (ReadFile H path) (EvReadFile path).
Definition os_WriteFile (path data : string) (perm : nat) : M (option error) :=
  call (WriteFile H path data perm) (EvWriteFile path data perm).
Definition os_MkdirAll (path : string) (perm : nat) : M (option error) :=
  call (MkdirAll H path perm) (EvMkdirAll path perm).
Definition os_ReadDir (path : string) : M (list string + error) :=
  call (ReadDir H path) (EvReadDir path).
Definition os_RemoveAll (path : string) : M (option error) :=
  call (RemoveAll H path) (EvRemoveAll path).

#[local] Notation "x <- m ;; k" := (bind m (fun x => k))
  (at level 61, m at next level, right associativity).
#[local] Notation "m ;;; k" := (bind m (fun _ => k))
  (at level 61, right associativity).

(** [log.Printf] and [log.Fatalf]; the latter ends the process with
    status 1, and no deferred call runs. *)
Definition Printf (f : string) (args : list string) : M unit :=
  fun s => (Returned tt, s, [EvLog (logLine (Sprintf f args))]).

Definition Fatalf {A} (f : string) (args : list string) : M A :=
  fun s => (Exited 1, s, [EvLog (logLine (Sprintf f args))]).

(** [if err != nil { log.Fatalf(f, args...) }] *)
Definition check (err : option error) (f : string) (args : error -> list string)
    : M unit :=
  match err with
  | Some e => Fatalf f (args e)
  | None => ret tt
  end.

Definition must {A} (r : A + error) (f : string) (args : error -> list string)
    : M A :=
  match r with
  | inl a => ret a
  | inr e => Fatalf f (args e)
  end.

Definition fetchRevision (dir : string) : M (string * option error) :=
  r <- cmd_CombinedOutput
         {| Name := "git"; Args := ["describe"; "--tags"; "--always"];
            Dir := dir; Env := None; Stdio := false |} ;;
  ret (TrimSpace (fst r), snd r).

Definition loadWASM : M (string + error) :=
  let root := Join [GOROOT H; "misc"; "wasm"] in
  os_ReadFile (Join [root; "wasm_exec.js"]).

Definition cloneCmd (vers tmp : string) : Cmd :=
  {| Name := "git";
     Args := ["clone"; "--depth=1"; "-b"; vers; "https://github.com/go-p5/p5"];
     Dir := tmp; Env := None; Stdio := true |}.

(** The compile command of one example; [name] is ["example/" + dir]. *)
Definition buildCmd (tmp name : string) : Cmd :=
  let pkg := Base name in
  {| Name := "go";
     Args := ["build"; "-o"; "../bin/" ++ pkg ++ ".wasm"; "./" ++ name];
     Dir := Join [tmp; "p5"];
     Env := Some (app ["GOBIN=" ++ tmp ++ "/bin"; "GOOS=js"; "GOARCH=wasm"]
                      (Environ H));
     Stdio := true |}.

Definition listItem (pkg : string) : string :=
  Sprintf ("<li><a href=%q>%s</a></li>" ++ nl)
    ["https://go-p5.github.io/example/" ++ pkg ++ "/index.html"; pkg].

(** The body of the loop over the examples, for one directory that is
    not excluded; [root] is the index page so far. *)
Definition genExample (tmp dir root : string) : M string :=
  let name := "example/" ++ dir in
  Printf "generating %s..." [name] ;;;
  let pkg := Base name in
  err <- cmd_Run (buildCmd tmp name) ;;
  check err "could not build WASM %q: %+v" (fun e => [name; e]) ;;;
  err <- os_MkdirAll name 493 ;;
  check err "could not create source dir %q: %+v" (fun e => [name; e]) ;;;
  let title := "Go-P5: " ++ pkg in
  let src := Sprintf "https://go-p5.github.io/example/%s/%s.wasm" [pkg; pkg] in
  err <- os_WriteFile (Join [name; "index.html"])
           (Sprintf indexHTML [title; src]) 420 ;;
  check err "could not write example HTML %q: %+v" (fun e => [name; e]) ;;;
  let fname := Join [name; pkg ++ ".wasm"] in
  r <- os_ReadFile (Join [tmp; "bin"; pkg ++ ".wasm"]) ;;
  wasm <- must r "could not read WASM binary %q: %+v" (fun e => [name; e]) ;;
  err <- os_WriteFile fname wasm 420 ;;
  check err "could not write WASM binary %q: %+v" (fun e => [name; e]) ;;;
  err <- cmd_Run (Command "git" ["add"; fname]) ;;
  check err "could not add WASM binary to repository: %+v" (fun e => [e]) ;;;
  ret (root ++ listItem pkg).

(** [for _, dir := range pkgs { ... }] *)
Fixpoint genExamples (tmp : string) (pkgs : list string) (root : string)
    : M string :=
  match pkgs with
  | [] => ret root
  | dir :: rest =>
      if excluded dir then
        Printf "ignoring %s..." [dir] ;;;
        genExamples tmp rest root
      else
        root' <- genExample tmp dir root ;;
        genExamples tmp rest root'
  end.

(** [for _, p := range pkgs { log.Printf(">>> %+v", p.Name()) }] *)
Fixpoint logNames (pkgs : list string) : M unit :=
  match pkgs with
  | [] => ret tt
  | p :: rest => Printf ">>> %+v" [p] ;;; logNames rest
  end.

(** From the clone to the listing of the examples: the index page so
    far and the names of the entries of the example folder. *)
Definition setup (vers tmp : string) : M (string * list string) :=
  err <- cmd_Run (cloneCmd vers tmp) ;;
  check err "could not initialize module: %+v" (fun e => [e]) ;;;
  rv <- fetchRevision (Join [tmp; "p5"]) ;;
  let revision := fst rv in
  check (snd rv) ("could not retrieve git revision:" ++ nl ++ "%s" ++ nl ++ "err: %+v")
    (fun e => [revision; e]) ;;;
  Printf "revision: %q" [revision] ;;;
  let root := Sprintf rootHeader [revision] in
  r <- loadWASM ;;
  js <- must r "could not find WASM bootstrap code: %+v" (fun e => [e]) ;;
  err <- os_MkdirAll "assets" 493 ;;
  check err "could not create 'assets': %+v" (fun e => [e]) ;;;
  err <- os_WriteFile (Join ["assets"; "wasm_exec.js"]) js 420 ;;
  check err "could not write wasm_exec.js: %+v" (fun e => [e]) ;;;
  r <- os_ReadDir (Join [tmp; "p5"; "example"]) ;;
  pkgs <- must r "could not read dir: %+v" (fun e => [e]) ;;
  logNames pkgs ;;;
  ret (root, pkgs).

(** The end of [gen]: the footer and the root index page. *)
Definition finish (root : string) : M unit :=
  let root := root ++ rootFooter in
  err <- os_WriteFile "index.html" root 420 ;;
  check err "could not create root index: %+v" (fun e => [e]).

(** [func gen(vers string)].  [defer os.RemoveAll(tmp)] runs when the
    body returns, and its error is dropped; it does not run when the
    body ends the process. *)
Definition gen (vers : string) : M unit :=
  r <- os_MkdirTemp "" "go-p5-gen-" ;;
  tmp <- must r "could not create tmp dir: %+v" (fun e => [e]) ;;
  (st <- setup vers tmp ;;
   root <- genExamples tmp (snd st) (fst st) ;;
   finish root) ;;;
  os_RemoveAll tmp ;;;
  ret tt.
End Program.

Arguments Clean : simpl never.
Arguments Join : simpl never.
Arguments Base : simpl never.
Arguments Sprintf : simpl never.
Arguments logLine : simpl never.
Arguments excluded : simpl never.

(** ** The traces of the program

    What [gen] can do, call by call: the trace of a run is one of the
    event lists below, whatever the host answers. *)

Section Traces.
Context {T : Text} {S : Type} (H : Host S).

Definition fatal (f : string) (args : list string) : Event :=
  EvLog (logLine (Sprintf f args)).

Definition exampleName (dir : string) : string := "example/" ++ dir.
Definition pkgOf (dir : string) : string := Base (exampleName dir).
Definition pageOf (dir : string) : string := Join [exampleName dir; "index.html"].
Definition artifactOf (dir : string) : string :=
  Join [exampleName dir; pkgOf dir ++ ".wasm"].
Definition binOf (tmp dir : string) : string := Join [tmp; "bin"; pkgOf dir ++ ".wasm"].
Definition stageCmd (dir : string) : Cmd := Command "git" ["add"; artifactOf dir].
Definition pageHTML (dir : string) : string :=
  Sprintf indexHTML
    ["Go-P5: " ++ pkgOf dir;
     Sprintf "https://go-p5.github.io/example/%s/%s.wasm" [pkgOf dir; pkgOf dir]].

(** The calls of one example, each with the result it needs for the
    next one to happen. *)
Definition compiled (tmp dir : string) : list Event :=
  [EvLog (logLine (Sprintf "generating %s..." [exampleName dir]));
   EvRun (buildCmd H tmp (exampleName dir)) None].
Definition paged (tmp dir : string) : list Event :=
  (compiled tmp dir
   ++ [EvMkdirAll (exampleName dir) 493 None;
       EvWriteFile (pageOf dir) (pageHTML dir) 420 None])%list.
Definition copied (tmp dir wasm : string) : list Event :=
  (paged tmp dir
   ++ [EvReadFile (binOf tmp dir) (inl wasm);
       EvWriteFile (artifactOf dir) wasm 420 None])%list.
Definition processed (tmp dir wasm : string) : list Event :=
  (copied tmp dir wasm ++ [EvRun (stageCmd dir) None])%list.

(** The traces of an example at which the run ends. *)
Inductive ExampleFails (tmp dir : string) : list Event -> Prop :=
| FailBuild e :
    ExampleFails tmp dir
      [EvLog (logLine (Sprintf "generating %s..." [exampleName dir]));
       EvRun (buildCmd H tmp (exampleName dir)) (Some e);
       fatal "could not build WASM %q: %+v" [exampleName dir; e]]
| FailMkdir e :
    ExampleFails tmp dir
      (compiled tmp dir
       ++ [EvMkdirAll (exampleName dir) 493 (Some e);
           fatal "could not create source dir %q: %+v" [exampleName dir; e]])
| FailPage e :
    ExampleFails tmp dir
      (compiled tmp dir
       ++ [EvMkdirAll (exampleName dir) 493 None;
           EvWriteFile (pageOf dir) (pageHTML dir) 420 (Some e);
           fatal "could not write example HTML %q: %+v" [exampleName dir; e]])
| FailRead e :
    ExampleFails tmp dir
      (paged tmp dir
       ++ [EvReadFile (binOf tmp dir) (inr e);
           fatal "could not read WASM binary %q: %+v" [exampleName dir; e]])
| FailCopy wasm e :
    ExampleFails tmp dir
      (paged tmp dir
       ++ [EvReadFile (binOf tmp dir) (inl wasm);
           EvWriteFile (artifactOf dir) wasm 420 (Some e);
           fatal "could not write WASM binary %q: %+v" [exampleName dir; e]])
| FailStage wasm e :
    ExampleFails tmp dir
      (copied tmp dir wasm
       ++ [EvRun (stageCmd dir) (Some e);
           fatal "could not add WASM binary to repository: %+v" [e]]).

(** The traces of the loop over [pkgs]: [Some done] when it comes to
    its end, with the examples it processed; [None] when the run ends
    in it. *)
Inductive LoopTrace (tmp : string)
    : list string -> option (list string) -> list Event -> Prop :=
| LoopEnd : LoopTrace tmp [] (Some []) []
| LoopSkip dir rest r t :
    excluded dir = true ->
    LoopTrace tmp rest r t ->
    LoopTrace tmp (dir :: rest) r
      (EvLog (logLine (Sprintf "ignoring %s..." [dir])) :: t)
| LoopNext dir rest wasm r t :
    excluded dir = false ->
    LoopTrace tmp rest r t ->
    LoopTrace tmp (dir :: rest) (option_map (cons dir) r)
      (processed tmp dir wasm ++ t)
| LoopFail dir rest t :
    excluded dir = false ->
    ExampleFails tmp dir t ->
    LoopTrace tmp (dir :: rest) None t.

(** The index page: the header with the revision, one item per
    processed example, the footer. *)
Definition listItems (done : list string) : string :=
  String.concat "" (map (fun dir => listItem (pkgOf dir)) done).
Definition indexPage (revision : string) (done : list string) : string :=
  Sprintf rootHeader [revision] ++ listItems done ++ rootFooter.

(** The calls before the loop, each with the result it needs for the
    next one to happen. *)
Definition describeCmd (tmp : string) : Cmd :=
  {| Name := "git"; Args := ["describe"; "--tags"; "--always"];
     Dir := Join [tmp; "p5"]; Env := None; Stdio := false |}.
Definition wasmExec : string :=
  Join [Join [GOROOT H; "misc"; "wasm"]; "wasm_exec.js"].

Definition cloned (vers tmp : string) : list Event :=
  [EvMkdirTemp "" "go-p5-gen-" (inl tmp); EvRun (cloneCmd vers tmp) None].
Definition described (vers tmp out : string) : list Event :=
  (cloned vers tmp
   ++ [EvCombinedOutput (describeCmd tmp) (out, None);
       EvLog (logLine (Sprintf "revision: %q" [TrimSpace out]))])%list.
Definition loaded (vers tmp out js : string) : list Event :=
  (described vers tmp out ++ [EvReadFile wasmExec (inl js)])%list.
Definition published (vers tmp out js : string) : list Event :=
  (loaded vers tmp out js
   ++ [EvMkdirAll "assets" 493 None;
       EvWriteFile (Join ["assets"; "wasm_exec.js"]) js 420 None])%list.
Definition listed (vers tmp out js : string) (pkgs : list string) : list Event :=
  (published vers tmp out js
   ++ EvReadDir (Join [tmp; "p5"; "example"]) (inl pkgs)
   :: map (fun p => EvLog (logLine (Sprintf ">>> %+v" [p]))) pkgs)%list.

(** The traces of [gen vers]: [true] for a run that returns. *)
Inductive GenTrace (vers : string) : bool -> list Event -> Prop :=
| GenNoTmp e :
    GenTrace vers false
      [EvMkdirTemp "" "go-p5-gen-" (inr e);
       fatal "could not create tmp dir: %+v" [e]]
| GenNoClone tmp e :
    GenTrace vers false
      [EvMkdirTemp "" "go-p5-gen-" (inl tmp);
       EvRun (cloneCmd vers tmp) (Some e);
       fatal "could not initialize module: %+v" [e]]
| GenNoRevision tmp out e :
    GenTrace vers false
      (cloned vers tmp
       ++ [EvCombinedOutput (describeCmd tmp) (out, Some e);
           fatal ("could not retrieve git revision:" ++ nl ++ "%s" ++ nl ++ "err: %+v")
             [TrimSpace out; e]])
| GenNoWasmExec tmp out e :
    GenTrace vers false
      (described vers tmp out
       ++ [EvReadFile wasmExec (inr e);
           fatal "could not find WASM bootstrap code: %+v" [e]])
| GenNoAssets tmp out js e :
    GenTrace vers false
      (loaded vers tmp out js
       ++ [EvMkdirAll "assets" 493 (Some e);
           fatal "could not create 'assets': %+v" [e]])
| GenNoBootstrap tmp out js e :
    GenTrace vers false
      (loaded vers tmp out js
       ++ [EvMkdirAll "assets" 493 None;
           EvWriteFile (Join ["assets"; "wasm_exec.js"]) js 420 (Some e);
           fatal "could not write wasm_exec.js: %+v" [e]])
| GenNoListing tmp out js e :
    GenTrace vers false
      (published vers tmp out js
       ++ [EvReadDir (Join [tmp; "p5"; "example"]) (inr e);
           fatal "could not read dir: %+v" [e]])
| GenNoExample tmp out js pkgs t :
    LoopTrace tmp pkgs None t ->
    GenTrace vers false (listed vers tmp out js pkgs ++ t)
| GenNoIndex tmp out js pkgs done t e :
    LoopTrace tmp pkgs (Some done) t ->
    GenTrace vers false
      (listed vers tmp out js pkgs ++ t
       ++ [EvWriteFile "index.html" (indexPage (TrimSpace out) done) 420 (Some e);
           fatal "could not create root index: %+v" [e]])
| GenDone tmp out js pkgs done t r :
    LoopTrace tmp pkgs (Some done) t ->
    GenTrace vers true
      (listed vers tmp out js pkgs ++ t
       ++ [EvWriteFile "index.html" (indexPage (TrimSpace out) done) 420 None;
           EvRemoveAll tmp r]).
End Traces.

(** ** What a trace shows *)

(** The temporary directory [os.MkdirTemp] returned. *)
Fixpoint created (t : list Event) : option string :=
  match t with
  | [] => None
  | EvMkdirTemp _ _ (inl tmp) :: _ => Some tmp
  | _ :: t' => created t'
  end.

(** The names [os.ReadDir] returned. *)
Fixpoint listing (t : list Event) : option (list string) :=
  match t with
  | [] => None
  | EvReadDir _ (inl pkgs) :: _ => Some pkgs
  | _ :: t' => listing t'
  end.

(** The output and the error of the command whose output was captured:
    the revision query. *)
Fixpoint queried (t : list Event) : option (string * option error) :=
  match t with
  | [] => None
  | EvCombinedOutput _ r :: _ => Some r
  | _ :: t' => queried t'
  end.

(** The data of the last [os.WriteFile] to [path] that succeeded. *)
Fixpoint written (path : string) (t : list Event) : option string :=
  match t with
  | [] => None
  | e :: t' =>
      match written path t' with
      | Some data => Some data
      | None =>
          match e with
          | EvWriteFile p data _ None => if String.eqb p path then Some data else None
          | _ => None
          end
      end
  end.

(** The files given to a [git add] that succeeded, in order. *)
Definition stagedBy (e : Event) : list string :=
  match e with
  | EvRun c None =>
      if String.eqb (Name c) "git" then
        match Args c with
        | [sub; file] => if String.eqb sub "add" then [file] else []
        | _ => []
        end
      else []
  | _ => []
  end.

Definition staged (t : list Event) : list string := flat_map stagedBy t.

(** A compile invocation for the example [dir]: a run of [go] on the
    package [./example/dir]. *)
Definition compileOf (dir : string) (e : Event) : bool :=
  match e with
  | EvRun c _ =>
      String.eqb (Name c) "go" && String.eqb (last (Args c) "") ("./example/" ++ dir)
  | _ => false
  end.

(** A staging step for the example [dir]: a run of [git add] on its
    artifact. *)
Definition stageOf (dir : string) (e : Event) : bool :=
  match e with
  | EvRun c _ =>
      String.eqb (Name c) "git"
      && String.eqb (last (Args c) "") ("example/" ++ dir ++ "/" ++ dir ++ ".wasm")
  | _ => false
  end.

(** A write of the file [path], and the making of the directory [path]. *)
Definition writeOf (path : string) (e : Event) : bool :=
  match e with
  | EvWriteFile p _ _ _ => String.eqb p path
  | _ => false
  end.

Definition mkdirOf (path : string) (e : Event) : bool :=
  match e with
  | EvMkdirAll p _ _ => String.eqb p path
  | _ => false
  end.

Definition removal (e : Event) : bool :=
  match e with
  | EvRemoveAll _ _ => true
  | _ => false
  end.

(** A compile invocation that failed. *)
Definition compileFailed (e : Event) : bool :=
  match e with
  | EvRun c (Some _) => String.eqb (Name c) "go"
  | _ => false
  end.

Definition count (P : Event -> bool) (t : list Event) : nat := length (filter P t).

(** The heading of the root index page around the revision. *)
Definition rootHeadBefore : string :=
  nl
  ++ "<!doctype html>" ++ nl
  ++ "<html>" ++ nl
  ++ "<head>" ++ nl
  ++ "        <meta charset=" ++ dq ++ "utf-8" ++ dq ++ ">" ++ nl
  ++ "        <title>Go-P5</title>" ++ nl
  ++ "</head>" ++ nl
  ++ nl
  ++ "<body>" ++ nl
  ++ "<h2>Welcome to the Go-P5 examples page (version=".

Definition rootHeadAfter : string :=
  ")</h2>" ++ nl
  ++ "This page shows a few <code>go-p5</code> examples, compiled to <code>WASM</code>." ++ nl
  ++ nl
  ++ "<ul>" ++ nl.

Definition notExcluded (dir : string) : bool := negb (excluded dir).

(** ** Text and hosts to run the program on *)

Definition isSpace (c : ascii) : bool :=
  let n := nat_of_ascii c in
  ((9 <=? n) && (n <=? 13) || (n =? 32))%nat.

Fixpoint trimLeft (s : string) : string :=
  match s with
  | EmptyString => ""
  | String c s' => if isSpace c then trimLeft s' else s
  end.

Fixpoint trimRight (s : string) : string :=
  match s with
  | EmptyString => ""
  | String c s' =>
      let r := trimRight s' in
      if isSpace c && String.eqb r "" then "" else String c r
  end.

Definition hexDigit (n : nat) : ascii :=
  ascii_of_nat (if (n <? 10)%nat then 48 + n else 87 + n).

Definition quoteByte (c : ascii) : string :=
  let n := nat_of_ascii c in
  if (n =? 34)%nat then "\" ++ dq
  else if (n =? 92)%nat then "\\"
  else if (n =? 7)%nat then "\a"
  else if (n =? 8)%nat then "\b"
  else if (n =? 12)%nat then "\f"
  else if (n =? 10)%nat then "\n"
  else if (n =? 13)%nat then "\r"
  else if (n =? 9)%nat then "\t"
  else if (n =? 11)%nat then "\v"
  else if ((n <? 32) || (n =? 127))%nat then
    "\x" ++ String (hexDigit (n / 16)) (String (hexDigit (n mod 16)) "")
  else String c "".

Fixpoint quoteBytes (s : string) : string :=
  match s with
  | EmptyString => ""
  | String c s' => quoteByte c ++ quoteBytes s'
  end.

(** [strconv.Quote] and [strings.TrimSpace] on ASCII text; a byte
    above 127 is taken as part of a printable character and is neither
    escaped nor trimmed. *)
Definition asciiText : Text :=
  {| Quote := fun s => dq ++ quoteBytes s ++ dq;
     TrimSpace := fun s => trimRight (trimLeft s) |}.

(** A host that answers by a script: the temporary directory, the
    output of the revision query, the entries of the example folder, the
    environment, and the commands that fail; every file can be read and
    written. *)
Definition scripted (out : string) (pkgs environ : list string) (fails : Cmd -> bool)
    : Host unit :=
  {| MkdirTemp := fun _ pattern s => (inl ("/tmp/" ++ pattern ++ "1"), s);
     Run := fun c s => (if fails c then Some "exit status 1" else None, s);
     CombinedOutput :=
       fun c s => ((out, if fails c then Some "exit status 128" else None), s);
     ReadFile := fun path s => (inl ("contents of " ++ path), s);
     WriteFile := fun _ _ _ s => (None, s);
     MkdirAll := fun _ _ s => (None, s);
     ReadDir := fun _ s => (inl pkgs, s);
     RemoveAll := fun _ s => (None, s);
     Environ := environ;
     GOROOT := "/usr/local/go" |}.

Definition never (c : Cmd) : bool := false.

(** The events of a run of [gen] on a scripted host. *)
Definition runOf (h : Host unit) (vers : string) : list Event :=
  snd (gen (T := asciiText) h vers tt).

(** ** The calls a run is made of *)

Section Calls.
Context {T : Text} {S : Type} (H : Host S).

(** The calls before the loop, whatever their result. *)
Inductive SetupEvent (vers tmp : string) : Event -> Prop :=
| SetupLog line : SetupEvent vers tmp (EvLog line)
| SetupTmp : SetupEvent vers tmp (EvMkdirTemp "" "go-p5-gen-" (inl tmp))
| SetupNoTmp e : SetupEvent vers tmp (EvMkdirTemp "" "go-p5-gen-" (inr e))
| SetupClone r : SetupEvent vers tmp (EvRun (cloneCmd vers tmp) r)
| SetupDescribe r : SetupEvent vers tmp (EvCombinedOutput (describeCmd tmp) r)
| SetupLoad r : SetupEvent vers tmp (EvReadFile (wasmExec H) r)
| SetupAssets r : SetupEvent vers tmp (EvMkdirAll "assets" 493 r)
| SetupBootstrap js r :
    SetupEvent vers tmp (EvWriteFile (Join ["assets"; "wasm_exec.js"]) js 420 r)
| SetupList r : SetupEvent vers tmp (EvReadDir (Join [tmp; "p5"; "example"]) r).

(** The calls of the loop for the directory [dir]. *)
Inductive ExampleEvent (tmp dir : string) : Event -> Prop :=
| ExampleLog line : ExampleEvent tmp dir (EvLog line)
| ExampleBuild r : ExampleEvent tmp dir (EvRun (buildCmd H tmp (exampleName dir)) r)
| ExampleMkdir r : ExampleEvent tmp dir (EvMkdirAll (exampleName dir) 493 r)
| ExamplePage r :
    ExampleEvent tmp dir (EvWriteFile (pageOf dir) (pageHTML dir) 420 r)
| ExampleRead r : ExampleEvent tmp dir (EvReadFile (binOf tmp dir) r)
| ExampleCopy wasm r : ExampleEvent tmp dir (EvWriteFile (artifactOf dir) wasm 420 r)
| ExampleStage r : ExampleEvent tmp dir (EvRun (stageCmd dir) r).

(** A call of the loop over [pkgs]: a line of the log, or a call for a
    directory of [pkgs] that is not excluded. *)
Definition LoopEvent (tmp : string) (pkgs : list string) (e : Event) : Prop :=
  (exists line, e = EvLog line)
  \/ exists dir, In dir pkgs /\ excluded dir = false /\ ExampleEvent tmp dir e.

(** The calls after the loop. *)
Inductive FinishEvent (tmp : string) : Event -> Prop :=
| FinishIndex page r : FinishEvent tmp (EvWriteFile "index.html" page 420 r)
| FinishRemove r : FinishEvent tmp (EvRemoveAll tmp r).

(** Every call of a run is one of the setup, of the loop over the
    listing, or of the end. *)
Definition GenEvent (vers tmp : string) (pkgs : list string) (e : Event) : Prop :=
  SetupEvent vers tmp e \/ LoopEvent tmp pkgs e \/ FinishEvent tmp e.
End Calls.

(** A compile, page-generation or staging step for the example [dir]:
    its compile invocation, the making of its directory, a write of its
    page or of its artifact, the staging of its artifact. *)
Definition stepFor (dir : string) (e : Event) : bool :=
  compileOf dir e
  || mkdirOf ("example/" ++ dir) e
  || writeOf ("example/" ++ dir ++ "/index.html") e
  || writeOf ("example/" ++ dir ++ "/" ++ dir ++ ".wasm") e
  || stageOf dir e.

(** A write of [path] that succeeded. *)
Definition wrote (path : string) (e : Event) : bool :=
  match e with
  | EvWriteFile p _ _ None => String.eqb p path
  | _ => false
  end.

(** A compile invocation for [dir] that succeeded. *)
Definition built (dir : string) (e : Event) : bool :=
  match e with
  | EvRun c None =>
      String.eqb (Name c) "go" && String.eqb (last (Args c) "") ("./example/" ++ dir)
  | _ => false
  end.


(** The commands that are a compile invocation for [dir]; a script
    makes them fail. *)
Definition compiling (dir : string) (c : Cmd) : bool := compileOf dir (EvRun c None).

(** ** The environment of a child process

    [os/exec] starts a command with [Cmd.Env], or with the caller's
    environment when it is nil, after [dedupEnv]: of the entries with the
    same key only the last one is kept. *)

(** [strings.Index(s, "=")]. *)
Fixpoint indexEq (s : string) : option nat :=
  match s with
  | EmptyString => None
  | String c s' =>
      if Ascii.eqb c "="%char then Some 0 else option_map Datatypes.S (indexEq s')
  end.

(** The key of an entry [key=value]; an entry may start with [=], which
    is then part of the key. *)
Definition envKey (kv : string) : option string :=
  match indexEq kv with
  | None => None
  | Some 0 =>
      match indexEq (substring 1 (String.length kv) kv) with
      | Some j => Some (substring 0 (j + 1) kv)
      | None => Some ""
      end
  | Some i => Some (substring 0 i kv)
  end.

(** The scan of [dedupEnv], from the last entry to the first; [saw] are
    the keys met so far. *)
Fixpoint dedupScan (backwards saw : list string) : list string :=
  match backwards with
  | [] => []
  | kv :: rest =>
      match envKey kv with
      | None => if String.eqb kv "" then dedupScan rest saw else kv :: dedupScan rest saw
      | Some k =>
          if existsb (String.eqb k) saw then dedupScan rest saw
          else kv :: dedupScan rest (k :: saw)
      end
  end.

Definition dedupEnv (env : list string) : list string := rev (dedupScan (rev env) []).

(** The environment the command [c] is started with, by a process whose
    own environment is [inherited]. *)
Definition childEnv (inherited : list string) (c : Cmd) : list string :=
  match Env c with
  | Some env => dedupEnv env
  | None => dedupEnv inherited
  end.

(** The commands of a run that are a compile invocation. *)
Definition compileCmds (t : list Event) : list Cmd :=
  flat_map (fun e => match e with
                     | EvRun c _ => if String.eqb (Name c) "go" then [c] else []
                     | _ => []
                     end) t.

(** The revision query, which a script makes fail. *)
Definition describing (c : Cmd) : bool := existsb (String.eqb "describe") (Args c).

(** ** The files of a run *)

(** [os.MkdirAll path] makes the directory [path] and every parent of
    it that is missing.  The parents of [path] are what is before each
    of its separators, but for the empty path before a leading one;
    they are named here without the separator that follows them. *)
Fixpoint parentsFrom (pre path : string) : list string :=
  match path with
  | EmptyString => []
  | String c rest =>
      ((if isSlash c && negb (String.eqb pre "") then [pre] else [])
       ++ parentsFrom (pre ++ String c "") rest)%list
  end.

Definition madeBy (path : string) : list string :=
  (parentsFrom "" path ++ [path])%list.

(** The paths the process itself may create or write by a call: the
    directory of [os.MkdirTemp], the directories of [os.MkdirAll], the
    file of [os.WriteFile], also when the call returns an error (what a
    child process does is the host's). *)
Definition mutated (e : Event) : list string :=
  match e with
  | EvMkdirTemp _ _ (inl tmp) => [tmp]
  | EvWriteFile path _ _ _ => [path]
  | EvMkdirAll path _ _ => madeBy path
  | _ => []
  end.

(** The path [os.RemoveAll] removes, with everything below it. *)
Definition removed (e : Event) : list string :=
  match e with
  | EvRemoveAll path _ => [path]
  | _ => []
  end.

(** The call [e] makes or writes nothing but [tmp] and the paths
    [outs], and removes nothing but [tmp]. *)
Definition touchesOnly (tmp : option string) (outs : list string) (e : Event) : Prop :=
  (forall path, In path (mutated e) -> tmp = Some path \/ In path outs)
  /\ (forall path, In path (removed e) -> tmp = Some path).

(** The outputs of a run over the listing [pkgs]: the bootstrap script
    in [assets], the root index page, and for every directory that is
    not excluded the folder [example], its own folder in it, its page
    and its artifact. *)
Definition exampleOutputs (dir : string) : list string :=
  ["example";
   "example/" ++ dir;
   "example/" ++ dir ++ "/index.html";
   "example/" ++ dir ++ "/" ++ dir ++ ".wasm"].

Definition outputs (pkgs : list string) : list string :=
  app ["assets"; "assets/wasm_exec.js"; "index.html"]
      (flat_map exampleOutputs (filter notExcluded pkgs)).

(** A host with a state: the paths that exist.  The clone makes the
    checkout, a build makes its output, writing makes the file, making
    a directory makes it with its parents, and removing a path removes
    it and what is below it; [pkgs] are the entries of the example
    folder. *)
Definition below (path q : string) : bool :=
  String.eqb q path || HasPrefix q (path ++ "/").

Definition pathsHost (pkgs : list string) : Host (list string) :=
  {| MkdirTemp := fun _ pattern s =>
       let tmp := "/tmp/" ++ pattern ++ "1" in (inl tmp, tmp :: s);
     Run := fun c s =>
       (None,
        match Args c with
        | sub :: _ :: out :: _ =>
            if String.eqb sub "clone" then Join [Dir c; "p5"] :: s
            else if String.eqb sub "build" then Join [Dir c; out] :: s
            else s
        | _ => s
        end);
     CombinedOutput := fun c s => (("v1.2" ++ nl, None), s);
     ReadFile := fun path s =>
       (if existsb (String.eqb path) s then inl ("contents of " ++ path)
        else inr ("open " ++ path ++ ": no such file or directory"), s);
     WriteFile := fun path _ _ s => (None, path :: s);
     MkdirAll := fun path _ s => (None, (madeBy path ++ s)%list);
     ReadDir := fun _ s => (inl pkgs, s);
     RemoveAll := fun path s => (None, filter (fun q => negb (below path q)) s);
     Environ := [];
     GOROOT := "/usr/local/go" |}.

Definition pathExists (s : list string) (path : string) : bool :=
  existsb (String.eqb path) s.

(** The host [pathsHost] in a repository: staging a file changes the
    index of the repository, [.git/index]. *)
Definition repoHost (pkgs : list string) : Host (list string) :=
  {| MkdirTemp := MkdirTemp (pathsHost pkgs);
     Run := fun c s =>
       match Args c with
       | [sub; file] =>
           if String.eqb (Name c) "git" && String.eqb sub "add"
           then (None, ".git/index" :: s)
           else Run (pathsHost pkgs) c s
       | _ => Run (pathsHost pkgs) c s
       end;
     CombinedOutput := CombinedOutput (pathsHost pkgs);
     ReadFile := ReadFile (pathsHost pkgs);
     WriteFile := WriteFile (pathsHost pkgs);
     MkdirAll := MkdirAll (pathsHost pkgs);
     ReadDir := ReadDir (pathsHost pkgs);
     RemoveAll := RemoveAll (pathsHost pkgs);
     Environ := Environ (pathsHost pkgs);
     GOROOT := GOROOT (pathsHost pkgs) |}.

(** A call that returned an error on which the run ends.  (The error of
    the deferred [os.RemoveAll] is dropped.) *)
Definition failedCall (e : Event) : bool :=
  match e with
  | EvMkdirTemp _ _ (inr _) => true
  | EvRun _ (Some _) => true
  | EvCombinedOutput _ (_, Some _) => true
  | EvReadFile _ (inr _) => true
  | EvWriteFile _ _ _ (Some _) => true
  | EvMkdirAll _ _ (Some _) => true
  | EvReadDir _ (inr _) => true
  | _ => false
  end.

(** The keys [dedupScan] has met after the entries [backwards]. *)
Fixpoint seenKeys (backwards saw : list string) : list string :=
  match backwards with
  | [] => saw
  | kv :: rest =>
      match envKey kv with
      | None => seenKeys rest saw
      | Some k =>
          if existsb (String.eqb k) saw then seenKeys rest saw
          else seenKeys rest (k :: saw)
      end
  end.

(** The page template of an example: what is before the title, what is
    between the title and the address of the artifact, and what is after
    the address. *)
Definition indexBefore : string :=
  nl
  ++ "<!doctype html>" ++ nl
  ++ "<!--" ++ nl
  ++ "Copyright 2018 The Go Authors. All rights reserved." ++ nl
  ++ "Use of this source code is governed by a BSD-style" ++ nl
  ++ "license that can be found in the LICENSE file." ++ nl
  ++ "-->" ++ nl
  ++ "<html>" ++ nl
  ++ nl
  ++ "<head>" ++ nl
  ++ "        <meta charset=" ++ dq ++ "utf-8" ++ dq ++ ">" ++ nl
  ++ "        <title>".

Definition indexBetween : string :=
  "</title>" ++ nl
  ++ "</head>" ++ nl
  ++ nl
  ++ "<body>" ++ nl
  ++ "        <!--" ++ nl
  ++ "        Add the following polyfill for Microsoft Edge 17/18 support:" ++ nl
  ++ "        <script src=" ++ dq ++ "https://cdn.jsdelivr.net/npm/text-encoding@0.7.0/lib/encoding.min.js" ++ dq ++ "></script>" ++ nl
  ++ "        (see https://caniuse.com/#feat=textencoder)" ++ nl
  ++ "        -->" ++ nl
  ++ tab ++ tab ++ "<script src=" ++ dq ++ "https://go-p5.github.io/assets/wasm_exec.js" ++ dq ++ "></script>" ++ nl
  ++ "        <script>" ++ nl
  ++ "                if (!WebAssembly.instantiateStreaming) { // polyfill" ++ nl
  ++ "                        WebAssembly.instantiateStreaming = async (resp, importObject) => {" ++ nl
  ++ "                                const source = await (await resp).arrayBuffer();" ++ nl
  ++ "                                return await WebAssembly.instantiate(source, importObject);" ++ nl
  ++ "                        };" ++ nl
  ++ "                }" ++ nl
  ++ nl
  ++ "                const go = new Go();" ++ nl
  ++ "                let mod, inst;" ++ nl
  ++ "                WebAssembly.instantiateStreaming(fetch(" ++ dq.

Definition indexAfter : string :=
  dq ++ "), go.importObject).then((result) => {" ++ nl
  ++ "                        mod = result.module;" ++ nl
  ++ "                        inst = result.instance;" ++ nl
  ++ "                        document.getElementById(" ++ dq ++ "runButton" ++ dq ++ ").disabled = false;" ++ nl
  ++ "                }).catch((err) => {" ++ nl
  ++ "                        console.error(err);" ++ nl
  ++ "                });" ++ nl
  ++ nl
  ++ "                async function run() {" ++ nl
  ++ "                        console.clear();" ++ nl
  ++ "                        await go.run(inst);" ++ nl
  ++ "                        inst = await WebAssembly.instantiate(mod, go.importObject); // reset instance" ++ nl
  ++ "                }" ++ nl
  ++ "        </script>" ++ nl
  ++ nl
  ++ "        <button onClick=" ++ dq ++ "run();" ++ dq ++ " id=" ++ dq ++ "runButton" ++ dq ++ " disabled>Run</button>" ++ nl
  ++ "</body>" ++ nl
  ++ nl
  ++ "</html>" ++ nl.


(** The listing of a run, empty when the run did not come to it. *)
Definition listedOrNone (t : list Event) : list string :=
  match listing t with
  | Some pkgs => pkgs
  | None => []
  end.

(** The calls of the loop over [pkgs] when every call succeeds; [wasms]
    are the build outputs read, one for each directory that is not
    excluded. *)
Fixpoint loopCalls {T : Text} {S : Type} (H : Host S) (tmp : string)
    (pkgs wasms : list string) : list Event :=
  match pkgs with
  | [] => []
  | dir :: rest =>
      if excluded dir then
        EvLog (logLine (Sprintf "ignoring %s..." [dir])) :: loopCalls H tmp rest wasms
      else
        match wasms with
        | wasm :: wasms' => (processed H tmp dir wasm ++ loopCalls H tmp rest wasms')%list
        | [] => []
        end
  end.

(** ** Occurrences in a page *)






(** The error a call returned. *)
Definition errorOf (e : Event) : option error :=
  match e with
  | EvMkdirTemp _ _ (inr err) => Some err
  | EvRun _ (Some err) => Some err
  | EvCombinedOutput _ (_, Some err) => Some err
  | EvReadFile _ (inr err) => Some err
  | EvWriteFile _ _ _ (Some err) => Some err
  | EvMkdirAll _ _ (Some err) => Some err
  | EvReadDir _ (inr err) => Some err
  | _ => None
  end.

(** * Properties *)

(** ** The program has these traces *)

Lemma append_assoc (a b c : string) : (a ++ b) ++ c = a ++ b ++ c.
Proof. induction a as [|x a IH]; simpl; [reflexivity | now rewrite IH]. Qed.

Lemma append_nil_r (a : string) : a ++ "" = a.
Proof. induction a as [|x a IH]; simpl; [reflexivity | now rewrite IH]. Qed.

Section Soundness.
Context {T : Text} {S : Type} (H : Host S).

(** One step of a run: the result of the next call of the host, or of
    the test the program makes on it. *)
Ltac next Hrun :=
  match type of Hrun with
  | context [MkdirTemp H ?a ?b ?s] => destruct (MkdirTemp H a b s) as [[?|?] ?]
  | context [Run H ?c ?s] => destruct (Run H c s) as [[?|] ?]
  | context [CombinedOutput H ?c ?s] =>
      destruct (CombinedOutput H c s) as [[? [?|]] ?]
  | context [ReadFile H ?p ?s] => destruct (ReadFile H p s) as [[?|?] ?]
  | context [WriteFile H ?p ?d ?m ?s] => destruct (WriteFile H p d m s) as [[?|] ?]
  | context [MkdirAll H ?p ?m ?s] => destruct (MkdirAll H p m s) as [[?|] ?]
  | context [ReadDir H ?p ?s] => destruct (ReadDir H p s) as [[?|?] ?]
  | context [RemoveAll H ?p ?s] => destruct (RemoveAll H p s) as [? ?]
  end; cbn [fst snd app] in Hrun.

Ltac unfold_run Hrun :=
  unfold bind, check, must, Printf, Fatalf, ret,
    cmd_Run, cmd_CombinedOutput, os_ReadFile, os_WriteFile, os_MkdirAll,
    os_ReadDir, os_RemoveAll, os_MkdirTemp, call in Hrun.

Lemma genExample_trace tmp dir root s o s' t :
  genExample H tmp dir root s = (o, s', t) ->
  (exists wasm, o = Returned (root ++ listItem (pkgOf dir))
                /\ t = processed H tmp dir wasm)
  \/ (o = Exited 1 /\ ExampleFails H tmp dir t).
Proof.
  intros Hrun. unfold genExample in Hrun. unfold_run Hrun.
  repeat next Hrun; inversion Hrun; subst; clear Hrun;
    first [ left; eexists; split; reflexivity
          | right; split; [reflexivity | econstructor] ].
Qed.

Lemma listItems_cons dir done :
  listItems (dir :: done) = listItem (pkgOf dir) ++ listItems done.
Proof.
  unfold listItems. cbn [map String.concat]. destruct (map _ done); [|reflexivity].
  now rewrite append_nil_r.
Qed.

Lemma genExamples_trace tmp pkgs : forall root s o s' t,
  genExamples H tmp pkgs root s = (o, s', t) ->
  exists r, LoopTrace H tmp pkgs r t
            /\ o = match r with
                   | Some done => Returned (root ++ listItems done)
                   | None => Exited 1
                   end.
Proof.
  induction pkgs as [|dir rest IH]; intros root s o s' t Hrun; cbn [genExamples] in Hrun.
  - inversion Hrun; subst. exists (Some []). split; [constructor|].
    now rewrite append_nil_r.
  - destruct (excluded dir) eqn:Hex.
    + unfold bind, Printf in Hrun.
      destruct (genExamples H tmp rest root s) as [[o1 s1] t1] eqn:Hrest.
      inversion Hrun; subst; clear Hrun.
      destruct (IH _ _ _ _ _ Hrest) as (r & Hr & ->).
      exists r. split; [now constructor | reflexivity].
    + unfold bind in Hrun.
      destruct (genExample H tmp dir root s) as [[o1 s1] t1] eqn:Hone.
      apply genExample_trace in Hone.
      destruct Hone as [(wasm & -> & ->) | (-> & Hfail)].
      * destruct (genExamples H tmp rest _ s1) as [[o2 s2] t2] eqn:Hrest.
        inversion Hrun; subst; clear Hrun.
        destruct (IH _ _ _ _ _ Hrest) as (r & Hr & ->).
        exists (option_map (cons dir) r). split; [now constructor|].
        destruct r; cbn [option_map]; [|reflexivity].
        now rewrite listItems_cons, append_assoc.
      * inversion Hrun; subst; clear Hrun.
        exists None. split; [now apply LoopFail | reflexivity].
Qed.

Lemma logNames_run pkgs (s : S) :
  logNames pkgs s
  = (Returned tt, s, map (fun p => EvLog (logLine (Sprintf ">>> %+v" [p]))) pkgs).
Proof.
  induction pkgs as [|p rest IH]; [reflexivity|].
  cbn [logNames map]. unfold bind, Printf. now rewrite IH.
Qed.

(** Every run of [gen] has one of the traces of [GenTrace], and returns
    exactly when the trace is one of a run that returns. *)
Theorem gen_trace vers s o s' t :
  gen H vers s = (o, s', t) ->
  exists b, GenTrace H vers b t /\ o = if b then Returned tt else Exited 1.
Proof.
  intros Hrun. unfold gen, setup, fetchRevision, loadWASM, finish in Hrun.
  unfold_run Hrun.
  repeat next Hrun;
    try (inversion Hrun; subst; clear Hrun; exists false;
         split; [econstructor | reflexivity]).
  rewrite logNames_run in Hrun. cbn [fst snd app] in Hrun.
  match type of Hrun with
  | context [genExamples H ?a ?b ?c ?d] =>
      destruct (genExamples H a b c d) as [[oL sL] tL] eqn:Hloop
  end.
  apply genExamples_trace in Hloop. destruct Hloop as ([done|] & Hloop & ->).
  - rewrite append_assoc in Hrun.
    match type of Hrun with
    | context [WriteFile H _ ?d _ _] => remember d as page eqn:Hpage
    end.
    repeat next Hrun; inversion Hrun; subst; clear Hrun;
      rewrite ?app_nil_r, <- ?app_assoc; cbn [app].
    + exists false. split; [|reflexivity]. eapply GenNoIndex, Hloop.
    + exists true. split; [|reflexivity]. eapply GenDone, Hloop.
  - inversion Hrun; subst; clear Hrun. rewrite ?app_nil_r.
    exists false. split; [|reflexivity]. eapply GenNoExample, Hloop.
Qed.
End Soundness.


(** ** Paths of directory entries *)

Lemma entryName_inv n :
  entryName n = true -> n <> "" /\ n <> "." /\ n <> ".." /\ noSlash n = true.
Proof.
  unfold entryName. rewrite !andb_true_iff, !negb_true_iff, !String.eqb_neq. tauto.
Qed.

Lemma append_inj_l (a b c : string) : a ++ b = a ++ c -> b = c.
Proof. induction a as [|x a IH]; simpl; intros E; [exact E | injection E; auto]. Qed.

Lemma length_append (a b : string) :
  String.length (a ++ b) = String.length a + String.length b.
Proof. induction a as [|x a IH]; simpl; [reflexivity | now rewrite IH]. Qed.

Lemma append_inj_r (a b c : string) : a ++ c = b ++ c -> a = b.
Proof.
  revert b. induction a as [|x a IH]; intros [|y b] E; simpl in E.
  - reflexivity.
  - apply (f_equal String.length) in E. simpl in E. rewrite length_append in E. lia.
  - apply (f_equal String.length) in E. simpl in E. rewrite length_append in E. lia.
  - injection E as -> E. f_equal. now apply IH.
Qed.

Lemma noSlash_append a b : noSlash (a ++ b) = noSlash a && noSlash b.
Proof. induction a as [|x a IH]; simpl; [reflexivity | now rewrite IH, andb_assoc]. Qed.

Lemma elements_noSlash n : noSlash n = true -> elements n = [n].
Proof.
  induction n as [|c n IH]; simpl; [reflexivity|].
  rewrite andb_true_iff, negb_true_iff. intros [-> Hn]. now rewrite (IH Hn).
Qed.

Lemma elements_slash a b :
  noSlash a = true -> elements (a ++ String slash b) = a :: elements b.
Proof.
  induction a as [|c a IH]; simpl; [reflexivity|].
  rewrite andb_true_iff, negb_true_iff. intros [-> Ha]. now rewrite (IH Ha).
Qed.

Lemma trimSlashes_entry a n :
  n <> "" -> noSlash n = true -> trimSlashes (a ++ n) = a ++ n.
Proof.
  intros Hne Hn.
  assert (Hbase : trimSlashes n = n).
  { clear Hne. induction n as [|c n IH]; simpl in *; [reflexivity|].
    apply andb_true_iff in Hn. destruct Hn as [Hc Hn].
    apply negb_true_iff in Hc. rewrite Hc, (IH Hn). reflexivity. }
  induction a as [|x a IH]; simpl; [exact Hbase|].
  rewrite IH. destruct (a ++ n) eqn:E.
  - destruct a; [simpl in E; contradiction | discriminate].
  - now rewrite andb_false_r.
Qed.

Lemma last_cons_cons {A} (x y : A) l d : last (x :: y :: l) d = last (y :: l) d.
Proof. reflexivity. Qed.

(** The base name of [example/n] is [n]. *)
Lemma Base_example n : entryName n = true -> Base ("example/" ++ n) = n.
Proof.
  intros Hn. apply entryName_inv in Hn. destruct Hn as (Hne & _ & _ & Hs).
  unfold Base. cbv zeta. rewrite (trimSlashes_entry "example/" Hne Hs).
  change ("example/" ++ n) with ("example" ++ String slash n).
  rewrite !elements_slash by reflexivity.
  rewrite (elements_noSlash _ Hs). cbn [last].
  destruct n; [contradiction | reflexivity].
Qed.

Lemma eqb_append_dot n s :
  n <> "" -> 2 <= String.length s ->
  String.eqb (n ++ s) "" = false /\ String.eqb (n ++ s) "." = false
  /\ String.eqb (n ++ s) ".." = false.
Proof.
  intros Hne Hs. repeat split; apply String.eqb_neq; intros E;
    apply (f_equal String.length) in E; rewrite length_append in E; simpl in E;
    destruct n; try contradiction; simpl in E; lia.
Qed.

Lemma cleanElement_entry rooted out e :
  entryName e = true -> cleanElement rooted out e = e :: out.
Proof.
  intros He. apply entryName_inv in He. destruct He as (Hne & Hd & Hdd & _).
  apply String.eqb_neq in Hne, Hd, Hdd. unfold cleanElement.
  now rewrite Hne, Hd, Hdd.
Qed.

Lemma Clean_relative path :
  path <> "" -> HasPrefix path "/" = false ->
  Clean path
  = let out := String.concat "/"
                 (rev (fold_left (cleanElement false) (elements path) [])) in
    if String.eqb out "" then "." else out.
Proof.
  intros Hne Hrel. unfold Clean. apply String.eqb_neq in Hne. now rewrite Hne, Hrel.
Qed.

(** [filepath.Join("example/" + n, last)] leaves the three elements as
    they are. *)
Lemma Join_example n rest :
  entryName n = true -> entryName rest = true ->
  Join ["example/" ++ n; rest] = "example/" ++ n ++ "/" ++ rest.
Proof.
  intros Hn Hr.
  change (Join ["example/" ++ n; rest])
    with (Clean ("example" ++ String slash (n ++ String slash rest))).
  rewrite Clean_relative by (reflexivity || discriminate).
  rewrite elements_slash by reflexivity.
  rewrite elements_slash by (now apply entryName_inv in Hn).
  rewrite elements_noSlash by (now apply entryName_inv in Hr).
  cbn [fold_left].
  rewrite (@cleanElement_entry false [] "example") by reflexivity.
  rewrite (cleanElement_entry false _ _ Hn), (cleanElement_entry false _ _ Hr).
  reflexivity.
Qed.

Lemma entryName_wasm n : entryName n = true -> entryName (n ++ ".wasm") = true.
Proof.
  intros Hn. apply entryName_inv in Hn. destruct Hn as (Hne & _ & _ & Hs).
  unfold entryName.
  destruct (@eqb_append_dot n ".wasm" Hne) as (-> & -> & ->); [simpl; lia|].
  now rewrite noSlash_append, Hs.
Qed.

Lemma pkgOf_entry n : entryName n = true -> pkgOf n = n.
Proof. apply Base_example. Qed.

Lemma pageOf_entry n :
  entryName n = true -> pageOf n = "example/" ++ n ++ "/index.html".
Proof. intros Hn. unfold pageOf, exampleName. now apply Join_example. Qed.

Lemma artifactOf_entry n :
  entryName n = true -> artifactOf n = "example/" ++ n ++ "/" ++ n ++ ".wasm".
Proof.
  intros Hn. unfold artifactOf, exampleName. rewrite (pkgOf_entry _ Hn).
  apply Join_example; [assumption | now apply entryName_wasm].
Qed.

(** ** The root index page *)

Lemma written_app path t1 t2 :
  written path (t1 ++ t2)
  = match written path t2 with
    | Some data => Some data
    | None => written path t1
    end.
Proof.
  induction t1 as [|e t1 IH]; cbn [app written].
  - now destruct (written path t2).
  - rewrite IH. now destruct (written path t2).
Qed.

Lemma listing_app t1 t2 :
  listing (t1 ++ t2)
  = match listing t1 with
    | Some pkgs => Some pkgs
    | None => listing t2
    end.
Proof.
  induction t1 as [|e t1 IH]; cbn [app listing]; [reflexivity|].
  destruct e; try exact IH. destruct r; [reflexivity | exact IH].
Qed.

Lemma queried_app t1 t2 :
  queried (t1 ++ t2)
  = match queried t1 with
    | Some r => Some r
    | None => queried t2
    end.
Proof.
  induction t1 as [|e t1 IH]; cbn [app queried]; [reflexivity|].
  destruct e; try exact IH. reflexivity.
Qed.

Lemma created_app t1 t2 :
  created (t1 ++ t2)
  = match created t1 with
    | Some tmp => Some tmp
    | None => created t2
    end.
Proof.
  induction t1 as [|e t1 IH]; cbn [app created]; [reflexivity|].
  destruct e; try exact IH. destruct r; [reflexivity | exact IH].
Qed.

Lemma rootHeader_revision {T : Text} revision :
  Sprintf rootHeader [revision] = rootHeadBefore ++ revision ++ rootHeadAfter.
Proof. reflexivity. Qed.

Lemma listItem_entry {T : Text} pkg :
  listItem pkg
  = "<li><a href=" ++ Quote ("https://go-p5.github.io/example/" ++ pkg ++ "/index.html")
    ++ ">" ++ pkg ++ "</a></li>" ++ nl.
Proof.
  unfold listItem, Sprintf. cbn [append format operand].
  rewrite ?append_assoc. reflexivity.
Qed.

Section Index.
Context {T : Text} {S : Type} (H : Host S).

(** A loop that comes to its end processed the directories that are
    not excluded, in their order. *)
Lemma LoopTrace_done tmp pkgs r t :
  LoopTrace H tmp pkgs r t ->
  forall done, r = Some done -> done = filter notExcluded pkgs.
Proof.
  induction 1 as [|dir rest r t Hex _ IH|dir rest wasm r t Hex _ IH|dir rest t Hex Hf];
    intros done E; cbn [filter]; unfold notExcluded at 1 || idtac;
    try rewrite Hex; cbn [negb].
  - now injection E as <-.
  - now apply IH.
  - destruct r as [done'|]; [|discriminate]. injection E as <-.
    f_equal. now apply IH.
  - discriminate.
Qed.

Lemma listed_shows vers tmp out js pkgs t :
  created (listed H vers tmp out js pkgs ++ t) = Some tmp
  /\ queried (listed H vers tmp out js pkgs ++ t) = Some (out, None)
  /\ listing (listed H vers tmp out js pkgs ++ t) = Some pkgs.
Proof. repeat split; reflexivity. Qed.

(** The trace of a run that returns: the index page is written last,
    from the revision and the directories that are not excluded, and
    then the temporary directory is removed. *)
Lemma GenTrace_returns vers t :
  GenTrace H vers true t ->
  exists tmp out js pkgs loop r,
    LoopTrace H tmp pkgs (Some (filter notExcluded pkgs)) loop
    /\ t = (listed H vers tmp out js pkgs ++ loop
            ++ [EvWriteFile "index.html"
                  (indexPage (TrimSpace out) (filter notExcluded pkgs)) 420 None;
                EvRemoveAll tmp r])%list.
Proof.
  inversion 1 as [| | | | | | | | |tmp out js pkgs done loop r Hloop]; subst.
  pose proof (LoopTrace_done Hloop eq_refl) as ->.
  now exists tmp, out, js, pkgs, loop, r.
Qed.

Lemma returns_index vers s s' t :
  gen H vers s = (Returned tt, s', t) ->
  exists out pkgs,
    queried t = Some (out, None) /\ listing t = Some pkgs
    /\ written "index.html" t
       = Some (indexPage (TrimSpace out) (filter notExcluded pkgs)).
Proof.
  intros Hrun. apply gen_trace in Hrun. destruct Hrun as ([|] & Ht & E); [|discriminate].
  apply GenTrace_returns in Ht. destruct Ht as (tmp & out & js & pkgs & loop & r & _ & ->).
  exists out, pkgs. repeat split; try apply listed_shows.
  now rewrite !written_app.
Qed.
End Index.

(** C5: on a run that returns, the root index page that is written is
    the heading with the revision (the trimmed output of the revision
    query) in it, then one list item for every directory of the listing
    that is not excluded, in the order of the listing, then the footer;
    the item of a directory entry [dir] links to its page and shows its
    name. *)
Theorem index_page_lists_every_example {T : Text} {S : Type} (H : Host S)
    vers s s' t :
  gen H vers s = (Returned tt, s', t) ->
  exists out pkgs,
    queried t = Some (out, None) /\ listing t = Some pkgs
    /\ written "index.html" t
       = Some (rootHeadBefore ++ TrimSpace out ++ rootHeadAfter
               ++ String.concat ""
                    (map (fun dir => listItem (pkgOf dir)) (filter notExcluded pkgs))
               ++ rootFooter)
    /\ forall dir, entryName dir = true ->
         listItem (pkgOf dir)
         = "<li><a href="
           ++ Quote ("https://go-p5.github.io/example/" ++ dir ++ "/index.html")
           ++ ">" ++ dir ++ "</a></li>" ++ nl.
Proof.
  intros Hrun. destruct (returns_index H _ _ Hrun) as (out & pkgs & Hq & Hl & Hw).
  exists out, pkgs. repeat split; try assumption.
  - rewrite Hw. unfold indexPage, listItems.
    now rewrite rootHeader_revision, !append_assoc.
  - intros dir Hdir. rewrite (pkgOf_entry _ Hdir). apply listItem_entry.
Qed.

Lemma index_page_lists_every_example_witness :
  exists out pkgs,
    queried (runOf (scripted "v1.2" ["a"; "b"; "sketch"] [] never) "main")
    = Some (out, None)
    /\ listing (runOf (scripted "v1.2" ["a"; "b"; "sketch"] [] never) "main") = Some pkgs
    /\ written "index.html" (runOf (scripted "v1.2" ["a"; "b"; "sketch"] [] never) "main")
       = Some (rootHeadBefore ++ @TrimSpace asciiText out ++ rootHeadAfter
               ++ String.concat ""
                    (map (fun dir => @listItem asciiText (pkgOf dir))
                       (filter notExcluded pkgs))
               ++ rootFooter)
    /\ forall dir, entryName dir = true ->
         @listItem asciiText (pkgOf dir)
         = "<li><a href="
           ++ @Quote asciiText ("https://go-p5.github.io/example/" ++ dir ++ "/index.html")
           ++ ">" ++ dir ++ "</a></li>" ++ nl.
Proof.
  apply (@index_page_lists_every_example asciiText unit
           (scripted "v1.2" ["a"; "b"; "sketch"] [] never) "main" tt tt).
  vm_compute. reflexivity.
Defined.

(** C10: when every directory of the listing is excluded (or there is
    none), a run that returns writes the root index page all the same:
    the heading with the revision and the footer, without a list item. *)
Theorem index_page_without_examples {T : Text} {S : Type} (H : Host S)
    vers s s' t pkgs :
  gen H vers s = (Returned tt, s', t) ->
  listing t = Some pkgs ->
  forallb excluded pkgs = true ->
  exists out,
    queried t = Some (out, None)
    /\ written "index.html" t
       = Some (rootHeadBefore ++ TrimSpace out ++ rootHeadAfter ++ rootFooter).
Proof.
  intros Hrun Hl Hex. destruct (returns_index H _ _ Hrun) as (out & pkgs' & Hq & Hl' & Hw).
  rewrite Hl in Hl'. injection Hl' as <-.
  exists out. split; [assumption|]. rewrite Hw.
  replace (filter notExcluded pkgs) with (@nil string).
  - unfold indexPage, listItems. cbn [map String.concat append].
    now rewrite rootHeader_revision, !append_assoc.
  - clear -Hex. induction pkgs as [|p pkgs IH]; [reflexivity|].
    cbn [forallb] in Hex. apply andb_true_iff in Hex. destruct Hex as [Hp Hex].
    cbn [filter]. unfold notExcluded at 1. rewrite Hp. cbn [negb]. now apply IH.
Qed.

Lemma index_page_without_examples_witness :
  exists out,
    queried (runOf (scripted "v1.2" ["sketch"; "wasm-p5-ex"] [] never) "main")
    = Some (out, None)
    /\ written "index.html" (runOf (scripted "v1.2" ["sketch"; "wasm-p5-ex"] [] never) "main")
       = Some (rootHeadBefore ++ @TrimSpace asciiText out ++ rootHeadAfter ++ rootFooter).
Proof.
  apply (@index_page_without_examples asciiText unit
           (scripted "v1.2" ["sketch"; "wasm-p5-ex"] [] never) "main" tt tt _
           ["sketch"; "wasm-p5-ex"]);
    vm_compute; reflexivity.
Defined.

(** ** The calls of a run *)

Section Alphabet.
Context {T : Text} {S : Type} (H : Host S).

Lemma processed_events tmp dir wasm :
  Forall (ExampleEvent H tmp dir) (processed H tmp dir wasm).
Proof. repeat constructor. Qed.

Lemma ExampleFails_events tmp dir t :
  ExampleFails H tmp dir t -> Forall (ExampleEvent H tmp dir) t.
Proof. destruct 1; repeat constructor. Qed.

Lemma LoopEvent_cons tmp dir rest e :
  LoopEvent H tmp rest e -> LoopEvent H tmp (dir :: rest) e.
Proof.
  intros [Hlog | (d & Hd & Hex & He)]; [now left | right].
  exists d. repeat split; [now right | assumption | assumption].
Qed.

Lemma LoopTrace_events tmp pkgs r t :
  LoopTrace H tmp pkgs r t -> Forall (LoopEvent H tmp pkgs) t.
Proof.
  induction 1 as [|dir rest r t Hex _ IH|dir rest wasm r t Hex _ IH|dir rest t Hex Hf].
  - constructor.
  - constructor; [left; eauto|].
    eapply Forall_impl; [|exact IH]. intros e. apply LoopEvent_cons.
  - apply Forall_app. split.
    + eapply Forall_impl; [|apply processed_events].
      intros e He. right. exists dir. repeat split; [now left | assumption | exact He].
    + eapply Forall_impl; [|exact IH]. intros e. apply LoopEvent_cons.
  - eapply Forall_impl; [|apply ExampleFails_events, Hf].
    intros e He. right. exists dir. repeat split; [now left | assumption | exact He].
Qed.

Lemma listed_events vers tmp out js pkgs :
  Forall (SetupEvent H vers tmp) (listed H vers tmp out js pkgs).
Proof.
  unfold listed. apply Forall_app. split; [repeat constructor|].
  constructor; [constructor|].
  induction pkgs; constructor; [constructor | assumption].
Qed.

Lemma GenTrace_events vers b t :
  GenTrace H vers b t ->
  exists tmp pkgs,
    (listing t = Some pkgs \/ pkgs = [])
    /\ Forall (GenEvent H vers tmp pkgs) t.
Proof.
  assert (Hsetup : forall tmp pkgs l,
            Forall (SetupEvent H vers tmp) l -> Forall (GenEvent H vers tmp pkgs) l).
  { intros tmp pkgs l. apply Forall_impl. intros e He. now left. }
  assert (Hloop : forall tmp pkgs r l,
            LoopTrace H tmp pkgs r l -> Forall (GenEvent H vers tmp pkgs) l).
  { intros tmp pkgs r l Hl. eapply Forall_impl; [|apply (LoopTrace_events Hl)].
    intros e He. right. now left. }
  destruct 1 as [e|tmp e|tmp out e|tmp out e|tmp out js e|tmp out js e|tmp out js e
                |tmp out js pkgs t Hl|tmp out js pkgs done t e Hl
                |tmp out js pkgs done t r Hl].
  1: exists "", [].
  2-7: exists tmp, [].
  8-10: exists tmp, pkgs.
  1-7: split; [now right | apply Hsetup; repeat constructor].
  all: split; [left; apply listed_shows|].
  all: apply Forall_app; split; [apply Hsetup, listed_events|].
  - apply (Hloop _ _ _ _ Hl).
  - apply Forall_app; split; [apply (Hloop _ _ _ _ Hl)|].
    constructor; [right; right; constructor|].
    constructor; [left; constructor | constructor].
  - apply Forall_app; split; [apply (Hloop _ _ _ _ Hl)|].
    repeat constructor; right; right; constructor.
Qed.
End Alphabet.

(** ** Excluded directories *)

Lemma existsb_false_Forall {A} (P : A -> bool) l :
  Forall (fun x => P x = false) l -> existsb P l = false.
Proof.
  induction 1 as [|x l Hx _ IH]; cbn [existsb]; [reflexivity|]. now rewrite Hx, IH.
Qed.

Lemma append_slash_inj a b x y :
  noSlash a = true -> noSlash b = true ->
  a ++ String slash x = b ++ String slash y -> a = b /\ x = y.
Proof.
  revert b. induction a as [|c a IH]; intros [|d b] Ha Hb E; cbn in *.
  - injection E as ->. now split.
  - injection E as <- _. discriminate.
  - injection E as -> _. discriminate.
  - apply andb_true_iff in Ha, Hb. destruct Ha as [_ Ha], Hb as [_ Hb].
    injection E as -> E. destruct (IH b Ha Hb E) as [-> ->]. now split.
Qed.

Lemma excluded_excludes n : In n excludes -> excluded n = true.
Proof. intros [<- | [<- | []]]; reflexivity. Qed.

Lemma excludes_entry n : In n excludes -> entryName n = true.
Proof. intros [<- | [<- | []]]; reflexivity. Qed.

Lemma eqb_example dir n : String.eqb ("example/" ++ dir) ("example/" ++ n) = String.eqb dir n.
Proof. reflexivity. Qed.

(** The paths of two directory entries are the same only when the
    entries are. *)
Lemma page_inj dir n rest rest' :
  entryName dir = true -> entryName n = true ->
  "example/" ++ dir ++ String slash rest = "example/" ++ n ++ String slash rest' ->
  dir = n.
Proof.
  intros Hd Hn E. apply entryName_inv in Hd, Hn.
  apply append_inj_l in E. now apply append_slash_inj in E.
Qed.

Section Skipped.
Context {T : Text} {S : Type} (H : Host S).

Lemma stepFor_setup vers tmp e n :
  SetupEvent H vers tmp e -> In n excludes -> stepFor n e = false.
Proof.
  intros He [<- | [<- | []]]; destruct He; vm_compute; reflexivity.
Qed.

Lemma stepFor_finish tmp e n : FinishEvent tmp e -> stepFor n e = false.
Proof. destruct 1; reflexivity. Qed.

Lemma stepFor_example tmp dir e n :
  ExampleEvent H tmp dir e -> entryName dir = true -> dir <> n -> entryName n = true ->
  stepFor n e = false.
Proof.
  intros He Hd Hne Hn. unfold stepFor.
  assert (Hp : forall rest rest',
             "example/" ++ dir ++ String slash rest
             <> "example/" ++ n ++ String slash rest').
  { intros rest rest' E. apply Hne. eapply page_inj; eassumption. }
  assert (Hs : String.eqb dir n = false) by now apply String.eqb_neq.
  destruct He; cbn [compileOf mkdirOf writeOf stageOf orb]; try reflexivity.
  - cbn [buildCmd Name Args last andb String.eqb Ascii.eqb Bool.eqb].
    unfold exampleName. cbn [append String.eqb Ascii.eqb Bool.eqb].
    now rewrite Hs.
  - unfold exampleName. now rewrite eqb_example, Hs.
  - rewrite (pageOf_entry _ Hd).
    repeat match goal with
           | |- context [String.eqb ?a ?b] =>
               replace (String.eqb a b) with false
                 by (symmetry; apply String.eqb_neq; exact (Hp _ _))
           end.
    reflexivity.
  - rewrite (artifactOf_entry _ Hd).
    repeat match goal with
           | |- context [String.eqb ?a ?b] =>
               replace (String.eqb a b) with false
                 by (symmetry; apply String.eqb_neq; exact (Hp _ _))
           end.
    reflexivity.
  - cbn [stageCmd Command Name Args last String.eqb Ascii.eqb Bool.eqb andb].
    rewrite (artifactOf_entry _ Hd).
    repeat match goal with
           | |- context [String.eqb ?a ?b] =>
               replace (String.eqb a b) with false
                 by (symmetry; apply String.eqb_neq; exact (Hp _ _))
           end.
    reflexivity.
Qed.

Lemma wrote_index_example tmp dir e :
  ExampleEvent H tmp dir e -> entryName dir = true -> wrote "index.html" e = false.
Proof.
  intros He Hd. destruct He; cbn [wrote]; try reflexivity.
  - rewrite (pageOf_entry _ Hd). now destruct r.
  - rewrite (artifactOf_entry _ Hd). now destruct r.
Qed.

Lemma wrote_index_setup vers tmp e :
  SetupEvent H vers tmp e -> wrote "index.html" e = false.
Proof. destruct 1; try reflexivity. now destruct r. Qed.

Lemma written_none path t :
  Forall (fun e => wrote path e = false) t -> written path t = None.
Proof.
  induction 1 as [|e t He _ IH]; cbn [written]; [reflexivity|]. rewrite IH.
  destruct e; try reflexivity. destruct r; [reflexivity|].
  cbn [wrote] in He. now rewrite He.
Qed.

Lemma wrote_index_loop tmp pkgs r t :
  LoopTrace H tmp pkgs r t -> Forall (fun d => entryName d = true) pkgs ->
  Forall (fun e => wrote "index.html" e = false) t.
Proof.
  intros Hl Hv. eapply Forall_impl; [|apply (LoopTrace_events Hl)].
  intros e [(line & ->) | (dir & Hin & _ & He)]; [reflexivity|].
  apply (wrote_index_example He). rewrite Forall_forall in Hv. now apply Hv.
Qed.

(** A run that exits has not written the root index page. *)
Lemma GenTrace_exits_no_index vers t :
  GenTrace H vers false t ->
  (forall pkgs, listing t = Some pkgs -> Forall (fun d => entryName d = true) pkgs) ->
  written "index.html" t = None.
Proof.
  intros Ht Hv. apply written_none.
  assert (Hsetup : forall tmp l,
            Forall (SetupEvent H vers tmp) l ->
            Forall (fun e => wrote "index.html" e = false) l).
  { intros tmp l. apply Forall_impl. intros e. apply wrote_index_setup. }
  inversion Ht as [e|tmp e|tmp out e|tmp out e|tmp out js e|tmp out js e|tmp out js e
                  |tmp out js pkgs loop Hl|tmp out js pkgs done loop e Hl|]; subst.
  1: apply (Hsetup ""). 2-7: apply (Hsetup tmp).
  1-7: repeat constructor.
  - apply Forall_app; split; [apply (Hsetup tmp), listed_events|].
    apply (wrote_index_loop Hl), Hv, listed_shows.
  - apply Forall_app; split; [apply (Hsetup tmp), listed_events|].
    apply Forall_app; split; [apply (wrote_index_loop Hl), Hv, listed_shows|].
    repeat constructor.
Qed.
End Skipped.

(** C2: for a directory of the exclusion set, a run makes no compile
    invocation, no directory, no page, no artifact and no staging; and a
    root index page that is written has a list item for the directories
    of the listing that are not excluded only. *)
Theorem excluded_examples_are_skipped {T : Text} {S : Type} (H : Host S)
    vers s o s' t n :
  gen H vers s = (o, s', t) ->
  (forall pkgs, listing t = Some pkgs -> Forall (fun d => entryName d = true) pkgs) ->
  In n excludes ->
  existsb (stepFor n) t = false
  /\ forall page,
       written "index.html" t = Some page ->
       exists out pkgs,
         queried t = Some (out, None) /\ listing t = Some pkgs
         /\ page = indexPage (TrimSpace out) (filter notExcluded pkgs)
         /\ ~ In n (filter notExcluded pkgs).
Proof.
  intros Hrun Hv Hn. pose proof (gen_trace H _ _ Hrun) as (b & Ht & Ho). split.
  - destruct (GenTrace_events Ht) as (tmp & pkgs & Hl & Hev).
    apply existsb_false_Forall. eapply Forall_impl; [|exact Hev].
    intros e [He | [[(line & ->) | (dir & Hin & Hex & He)] | He]].
    + exact (stepFor_setup He Hn).
    + reflexivity.
    + assert (Hd : entryName dir = true).
      { destruct Hl as [Hl | ->]; [|contradiction].
        specialize (Hv _ Hl). rewrite Forall_forall in Hv. now apply Hv. }
      apply (stepFor_example He Hd); [|now apply excludes_entry].
      intros ->. rewrite (excluded_excludes Hn) in Hex. discriminate.
    + exact (stepFor_finish n He).
  - intros page Hw. destruct b.
    + subst o. destruct (returns_index H _ _ Hrun) as (out & pkgs & Hq & Hl & Hw').
      exists out, pkgs. rewrite Hw in Hw'. injection Hw' as ->.
      repeat split; try assumption.
      intros Hin. apply filter_In in Hin. destruct Hin as [_ Hin].
      unfold notExcluded in Hin. now rewrite (excluded_excludes Hn) in Hin.
    + rewrite (GenTrace_exits_no_index Ht Hv) in Hw. discriminate.
Qed.

Lemma excluded_examples_are_skipped_witness :
  existsb (stepFor "sketch") (runOf (scripted "v1.2" ["a"; "b"; "sketch"] [] never) "main")
  = false
  /\ forall page,
       written "index.html" (runOf (scripted "v1.2" ["a"; "b"; "sketch"] [] never) "main")
       = Some page ->
       exists out pkgs,
         queried (runOf (scripted "v1.2" ["a"; "b"; "sketch"] [] never) "main")
         = Some (out, None)
         /\ listing (runOf (scripted "v1.2" ["a"; "b"; "sketch"] [] never) "main")
            = Some pkgs
         /\ page = @indexPage asciiText (@TrimSpace asciiText out) (filter notExcluded pkgs)
         /\ ~ In "sketch" (filter notExcluded pkgs).
Proof.
  apply (@excluded_examples_are_skipped asciiText unit
           (scripted "v1.2" ["a"; "b"; "sketch"] [] never) "main" tt (Returned tt) tt).
  - vm_compute. reflexivity.
  - intros pkgs E. vm_compute in E. injection E as <-. repeat constructor.
  - simpl. tauto.
Defined.

(** ** Compile invocations *)

Lemma count_app P t1 t2 : count P (t1 ++ t2) = count P t1 + count P t2.
Proof. unfold count. now rewrite filter_app, length_app. Qed.

Lemma count_none P t : Forall (fun e => P e = false) t -> count P t = 0.
Proof.
  unfold count. induction 1 as [|e t He _ IH]; cbn [filter]; [reflexivity|].
  now rewrite He.
Qed.

Lemma artifactOf_inj x d :
  entryName x = true -> entryName d = true -> artifactOf x = artifactOf d -> x = d.
Proof.
  intros Hx Hd. rewrite (artifactOf_entry _ Hx), (artifactOf_entry _ Hd).
  intros E. eapply page_inj; eassumption.
Qed.

Lemma staged_app t1 t2 : staged (t1 ++ t2) = (staged t1 ++ staged t2)%list.
Proof. apply flat_map_app. Qed.

Section Compiles.
Context {T : Text} {S : Type} (H : Host S).

Lemma compileOf_build tmp dir r n :
  compileOf n (EvRun (buildCmd H tmp (exampleName dir)) r) = String.eqb dir n.
Proof. reflexivity. Qed.

Lemma compileOf_setup vers tmp e n : SetupEvent H vers tmp e -> compileOf n e = false.
Proof. destruct 1; reflexivity. Qed.

Lemma compileOf_finish tmp e n : FinishEvent tmp e -> compileOf n e = false.
Proof. destruct 1; reflexivity. Qed.

Lemma count_processed tmp dir wasm n :
  count (compileOf n) (processed H tmp dir wasm) = if String.eqb dir n then 1 else 0.
Proof.
  unfold count, processed, copied, paged, compiled. cbn [app filter].
  rewrite compileOf_build. cbn [compileOf stageCmd Command Name String.eqb Ascii.eqb
                                  Bool.eqb andb].
  now destruct (String.eqb dir n).
Qed.

Lemma count_fails tmp dir t n :
  ExampleFails H tmp dir t ->
  count (compileOf n) t = if String.eqb dir n then 1 else 0.
Proof.
  destruct 1; unfold count, copied, paged, compiled, fatal; cbn [app filter];
    rewrite compileOf_build;
    cbn [compileOf stageCmd Command Name String.eqb Ascii.eqb Bool.eqb andb];
    now destruct (String.eqb dir n).
Qed.

(** In the loop, a directory that is not excluded is compiled at most
    once when the listing names it once, and once when the loop comes to
    its end. *)
Lemma count_loop tmp pkgs r t n :
  LoopTrace H tmp pkgs r t -> excluded n = false -> NoDup pkgs ->
  count (compileOf n) t <= 1
  /\ (~ In n pkgs -> count (compileOf n) t = 0)
  /\ (In n pkgs -> r <> None -> count (compileOf n) t = 1).
Proof.
  intros Hl Hn.
  induction Hl as [|dir rest r t Hex _ IH|dir rest wasm r t Hex _ IH|dir rest t Hex Hf];
    intros Hnd.
  - split; [cbn; lia|]. split; [reflexivity | intros []].
  - inversion Hnd as [|? ? Hnot Hnd']; subst. destruct (IH Hnd') as (Hle & H0 & H1).
    change (EvLog ?l :: t) with ([EvLog l] ++ t)%list. rewrite count_app.
    cbn [count filter compileOf length Nat.add]. repeat split; [assumption| |].
    + intros Hnot'. apply H0. intros Hin. apply Hnot'. now right.
    + intros [-> | Hin] Hr; [congruence | now apply H1].
  - inversion Hnd as [|? ? Hnot Hnd']; subst. destruct (IH Hnd') as (Hle & H0 & H1).
    rewrite count_app, count_processed.
    destruct (String.eqb dir n) eqn:E.
    + apply String.eqb_eq in E. subst dir. rewrite (H0 Hnot).
      split; [lia|]. split; [|reflexivity].
      intros Hnot'. exfalso. apply Hnot'. now left.
    + apply String.eqb_neq in E. cbn [Nat.add]. repeat split; [assumption| |].
      * intros Hnot'. apply H0. intros Hin. apply Hnot'. now right.
      * intros [-> | Hin] Hr; [congruence|]. apply H1; [assumption|].
        now destruct r.
  - rewrite (count_fails n Hf). destruct (String.eqb dir n) eqn:E.
    + apply String.eqb_eq in E. subst dir. split; [lia|]. split.
      * intros Hnot'. exfalso. apply Hnot'. now left.
      * intros _ Hr. now contradiction Hr.
    + apply String.eqb_neq in E. split; [lia|]. split; [reflexivity|].
      intros _ Hr. now contradiction Hr.
Qed.

Lemma count_listed vers tmp out js pkgs n :
  count (compileOf n) (listed H vers tmp out js pkgs) = 0.
Proof.
  apply count_none. eapply Forall_impl; [|apply listed_events].
  intros e. apply compileOf_setup.
Qed.
Lemma staged_processed tmp dir wasm :
  staged (processed H tmp dir wasm) = [artifactOf dir].
Proof. reflexivity. Qed.

Lemma staged_fails tmp dir t : ExampleFails H tmp dir t -> staged t = [].
Proof. destruct 1; reflexivity. Qed.

Lemma staged_listed vers tmp out js pkgs :
  staged (listed H vers tmp out js pkgs) = [].
Proof.
  unfold listed. rewrite staged_app. cbn [staged flat_map stagedBy app].
  induction pkgs as [|p pkgs IH]; [reflexivity | exact IH].
Qed.

(** The loop comes to [n] when the directories before it that are not
    excluded were processed to the end, the staging of the artifact
    being the last step: then [n] is compiled once, and if not, not at
    all. *)
Lemma count_reached tmp r t before n after :
  LoopTrace H tmp (before ++ n :: after) r t ->
  NoDup (before ++ n :: after) ->
  Forall (fun d => entryName d = true) (before ++ n :: after) ->
  excluded n = false ->
  count (compileOf n) t = 1
  <-> (forall m, In m before -> excluded m = false -> In (artifactOf m) (staged t)).
Proof.
  intros Hl. remember (before ++ n :: after)%list as pkgs eqn:E. revert before E.
  induction Hl as [|dir rest r t Hex Hl IH|dir rest wasm r t Hex Hl IH|dir rest t Hex Hf];
    intros before E Hnd Hv Hn.
  - destruct before; discriminate E.
  - destruct before as [|b before]; cbn [app] in E; injection E as -> ->; [congruence|].
    inversion Hnd as [|? ? _ Hnd']; inversion Hv as [|? ? _ Hv']; subst.
    specialize (IH before eq_refl Hnd' Hv' Hn).
    change (count (compileOf n) (EvLog (logLine (Sprintf "ignoring %s..." [b])) :: t))
      with (count (compileOf n) t).
    change (staged (EvLog (logLine (Sprintf "ignoring %s..." [b])) :: t)) with (staged t).
    rewrite IH. split.
    + intros Hall m [<- | Hin] Hm; [congruence | now apply Hall].
    + intros Hall m Hin Hm. apply Hall; [now right | assumption].
  - rewrite count_app, count_processed, staged_app, staged_processed.
    destruct before as [|b before]; cbn [app] in E; injection E as -> ->.
    + inversion Hnd as [|? ? Hnot Hnd']; subst.
      destruct (count_loop n Hl Hn Hnd') as (_ & H0 & _).
      rewrite String.eqb_refl, (H0 Hnot). split; [intros _ m []|reflexivity].
    + inversion Hnd as [|? ? Hnot Hnd']; inversion Hv as [|? ? Hb Hv']; subst.
      specialize (IH before eq_refl Hnd' Hv' Hn).
      assert (Hne : String.eqb b n = false).
      { apply String.eqb_neq. intros ->. apply Hnot, in_or_app. right. now left. }
      rewrite Hne. cbn [Nat.add app]. rewrite IH. split.
      * intros Hall m [<- | Hin] Hm; [now left|]. right. now apply Hall.
      * intros Hall m Hin Hm. destruct (Hall m (or_intror Hin) Hm) as [Eq | Hs]; [|exact Hs].
        exfalso. apply Hnot, in_or_app. left.
        rewrite Forall_forall in Hv'.
        assert (Ebm : b = m).
        { apply artifactOf_inj; [exact Hb| |exact Eq].
          apply Hv', in_or_app. now left. }
        rewrite Ebm. exact Hin.
  - rewrite (count_fails n Hf), (staged_fails Hf).
    destruct before as [|b before]; cbn [app] in E; injection E as -> ->.
    + rewrite String.eqb_refl. split; [intros _ m []|reflexivity].
    + inversion Hnd as [|? ? Hnot _]; subst.
      assert (Hne : String.eqb b n = false).
      { apply String.eqb_neq. intros ->. apply Hnot, in_or_app. right. now left. }
      rewrite Hne. split; [discriminate|].
      intros Hall. destruct (Hall b (or_introl eq_refl) Hex).
Qed.
End Compiles.

(** C3, as the program has it.  A run comes to a directory [n] of the
    listing when every directory before it that is not excluded was
    processed to the end (its artifact
    [example/m/m.wasm] staged).  A directory that is not excluded is
    compiled exactly once in a run that comes to it, and not at all in
    a run that does not; a run that returns comes to all of them.  So a
    run that exits in the loop has compiled, once each, the directories
    up to and including the one it exits at, and none after it. *)
Theorem one_compile_per_example {T : Text} {S : Type} (H : Host S)
    vers s o s' t before n after :
  gen H vers s = (o, s', t) ->
  listing t = Some (before ++ n :: after)%list ->
  NoDup (before ++ n :: after) ->
  Forall (fun d => entryName d = true) (before ++ n :: after) ->
  excluded n = false ->
  count (compileOf n) t <= 1
  /\ (count (compileOf n) t = 1
      <-> forall m, In m before -> excluded m = false -> In (artifactOf m) (staged t))
  /\ (o = Returned tt -> count (compileOf n) t = 1).
Proof.
  intros Hrun Hl Hnd Hv Hn. apply gen_trace in Hrun. destruct Hrun as (b & Ht & ->).
  assert (Hin : In n (before ++ n :: after)) by (apply in_or_app; right; now left).
  inversion Ht as [e|tmp e|tmp out e|tmp out e|tmp out js e|tmp out js e|tmp out js e
                  |tmp out js pkgs' loop Hloop|tmp out js pkgs' done loop e Hloop
                  |tmp out js pkgs' done loop r Hloop]; subst;
    try (cbn in Hl; discriminate);
    rewrite (proj2 (proj2 (listed_shows H _ _ _ _ _ _))) in Hl; injection Hl as ->;
    destruct (count_loop n Hloop Hn Hnd) as (Hle & _ & H1);
    pose proof (@count_reached T S H tmp _ loop before n after Hloop Hnd Hv Hn) as Hiff;
    rewrite !count_app, count_listed, !staged_app, staged_listed;
    cbn [count filter compileOf length Nat.add staged flat_map stagedBy app];
    rewrite ?Nat.add_0_r, ?app_nil_r.
  - split; [assumption|]. split; [assumption | discriminate].
  - split; [assumption|]. split; [assumption | discriminate].
  - split; [assumption|]. split; [assumption|].
    intros _. apply H1; [assumption | discriminate].
Qed.

Lemma one_compile_per_example_witness :
  count (compileOf "c")
    (runOf (scripted "v1.2" ["a"; "b"; "c"; "d"] [] (compiling "c")) "main") <= 1
  /\ (count (compileOf "c")
        (runOf (scripted "v1.2" ["a"; "b"; "c"; "d"] [] (compiling "c")) "main") = 1
      <-> forall m, In m ["a"; "b"] -> excluded m = false ->
            In (artifactOf m)
               (staged (runOf (scripted "v1.2" ["a"; "b"; "c"; "d"] [] (compiling "c"))
                          "main")))
  /\ (@Exited unit 1 = Returned tt ->
      count (compileOf "c")
        (runOf (scripted "v1.2" ["a"; "b"; "c"; "d"] [] (compiling "c")) "main") = 1).
Proof.
  apply (@one_compile_per_example asciiText unit
           (scripted "v1.2" ["a"; "b"; "c"; "d"] [] (compiling "c")) "main" tt (Exited 1) tt
           _ ["a"; "b"] "c" ["d"]).
  - vm_compute. reflexivity.
  - vm_compute. reflexivity.
  - repeat constructor; simpl; intuition discriminate.
  - repeat constructor.
  - reflexivity.
Defined.

(** C3, as the claim has it, fails: when the compile of [a] fails, the
    run exits, and [b], which the listing names and which is not
    excluded, is never compiled. *)
Lemma no_compile_after_a_failure :
  listing (runOf (scripted "v1.2" ["a"; "b"] [] (compiling "a")) "main")
  = Some ["a"; "b"]
  /\ excluded "b" = false
  /\ count (compileOf "b")
       (runOf (scripted "v1.2" ["a"; "b"] [] (compiling "a")) "main")
     = 0.
Proof. vm_compute. repeat split. Qed.

(** ** A compile that fails *)

Section Failure.
Context {T : Text} {S : Type} (H : Host S).








Lemma compileFailed_setup vers tmp e : SetupEvent H vers tmp e -> compileFailed e = false.
Proof. destruct 1; try reflexivity. now destruct r. Qed.

Lemma built_setup vers tmp e n : SetupEvent H vers tmp e -> built n e = false.
Proof. destruct 1; try reflexivity. now destruct r. Qed.

Lemma removal_setup vers tmp e : SetupEvent H vers tmp e -> removal e = false.
Proof. destruct 1; reflexivity. Qed.

Lemma removal_example tmp dir e : ExampleEvent H tmp dir e -> removal e = false.
Proof. destruct 1; reflexivity. Qed.

Lemma writeOf_index_setup vers tmp e :
  SetupEvent H vers tmp e -> writeOf "index.html" e = false.
Proof. destruct 1; reflexivity. Qed.

Lemma writeOf_index_example tmp dir e :
  ExampleEvent H tmp dir e -> entryName dir = true -> writeOf "index.html" e = false.
Proof.
  intros He Hd. destruct He; cbn [writeOf]; try reflexivity.
  - now rewrite (pageOf_entry _ Hd).
  - now rewrite (artifactOf_entry _ Hd).
Qed.

Lemma loop_no_index_no_removal tmp pkgs r t :
  LoopTrace H tmp pkgs r t -> Forall (fun d => entryName d = true) pkgs ->
  existsb (writeOf "index.html") t = false /\ existsb removal t = false.
Proof.
  intros Hl Hv. pose proof (LoopTrace_events Hl) as Hev. rewrite Forall_forall in Hv.
  split; apply existsb_false_Forall; (eapply Forall_impl; [|exact Hev]);
    intros e [(line & ->) | (dir & Hin & _ & He)]; try reflexivity.
  - apply (writeOf_index_example He). now apply Hv.
  - apply (removal_example He).
Qed.

Lemma setup_quiet vers tmp l :
  Forall (SetupEvent H vers tmp) l ->
  existsb compileFailed l = false
  /\ existsb (writeOf "index.html") l = false
  /\ existsb removal l = false
  /\ forall n, existsb (built n) l = false.
Proof.
  intros Hl. repeat split; try intros n; apply existsb_false_Forall;
    (eapply Forall_impl; [|exact Hl]); intros e He.
  - apply (compileFailed_setup He).
  - apply (writeOf_index_setup He).
  - apply (removal_setup He).
  - apply (built_setup n He).
Qed.
End Failure.



(** * More of the program *)

(** ** Fatal exits *)

Lemma existsb_logs {A} (P : Event -> bool) (f : A -> string) l :
  (forall line, P (EvLog line) = false) ->
  existsb P (map (fun a => EvLog (f a)) l) = false.
Proof.
  intros HP. induction l as [|a l IH]; cbn [map existsb]; [reflexivity|].
  now rewrite HP, IH.
Qed.

Section Exits.
Context {T : Text} {S : Type} (H : Host S).

Lemma failedCall_processed tmp dir wasm :
  existsb failedCall (processed H tmp dir wasm) = false.
Proof. reflexivity. Qed.

Lemma failedCall_listed vers tmp out js pkgs :
  existsb failedCall (listed H vers tmp out js pkgs) = false.
Proof.
  unfold listed. rewrite existsb_app. cbn [existsb failedCall orb].
  rewrite existsb_logs by reflexivity. reflexivity.
Qed.

(** The trace of an example at which the run ends: calls that
    succeeded, the call that failed, and the line of [log.Fatalf]. *)
Lemma ExampleFails_last tmp dir t :
  ExampleFails H tmp dir t ->
  exists t0 e line,
    t = (t0 ++ [e; EvLog line])%list /\ failedCall e = true
    /\ existsb failedCall t0 = false.
Proof.
  destruct 1 as [e|e|e|e|wasm e|wasm e].
  - eexists [_], _, _. repeat split.
  - eexists (compiled H tmp dir), _, _. repeat split.
  - eexists (compiled H tmp dir ++ [_])%list, _, _.
    rewrite <- app_assoc. repeat split.
  - eexists (paged H tmp dir), _, _. repeat split.
  - eexists (paged H tmp dir ++ [_])%list, _, _.
    rewrite <- app_assoc. repeat split.
  - eexists (copied H tmp dir wasm), _, _. repeat split.
Qed.

Lemma LoopTrace_last tmp pkgs r t :
  LoopTrace H tmp pkgs r t ->
  match r with
  | Some _ => existsb failedCall t = false
  | None =>
      exists t0 e line,
        t = (t0 ++ [e; EvLog line])%list /\ failedCall e = true
        /\ existsb failedCall t0 = false
  end.
Proof.
  induction 1 as [|dir rest r t Hex _ IH|dir rest wasm r t Hex _ IH|dir rest t Hex Hf].
  - reflexivity.
  - destruct r as [done|].
    + cbn [existsb failedCall orb]. exact IH.
    + destruct IH as (t0 & e & line & -> & He & H0).
      exists (EvLog (logLine (Sprintf "ignoring %s..." [dir])) :: t0), e, line.
      repeat split; assumption.
  - destruct r as [done|]; cbn [option_map].
    + now rewrite existsb_app, failedCall_processed.
    + destruct IH as (t0 & e & line & -> & He & H0).
      exists (processed H tmp dir wasm ++ t0)%list, e, line.
      rewrite <- app_assoc, existsb_app, failedCall_processed. repeat split; assumption.
  - exact (ExampleFails_last Hf).
Qed.
End Exits.

(** The run is fail-fast.  A run that returns had no call fail.  A run
    that exits does so with status 1, right after the first call that
    returned an error: that call is the last one, and what follows it is
    the one line of [log.Fatalf]. *)
Theorem first_error_ends_the_run {T : Text} {S : Type} (H : Host S)
    vers s o s' t :
  gen H vers s = (o, s', t) ->
  (o = Returned tt /\ existsb failedCall t = false)
  \/ (o = Exited 1
      /\ exists t0 e line,
           t = (t0 ++ [e; EvLog line])%list /\ failedCall e = true
           /\ existsb failedCall t0 = false).
Proof.
  intros Hrun. apply gen_trace in Hrun. destruct Hrun as (b & Ht & ->).
  destruct Ht as [e|tmp e|tmp out e|tmp out e|tmp out js e|tmp out js e|tmp out js e
                 |tmp out js pkgs t Hl|tmp out js pkgs done t e Hl
                 |tmp out js pkgs done t r Hl].
  - right. split; [reflexivity|]. eexists [], _, _. repeat split.
  - right. split; [reflexivity|]. eexists [_], _, _. repeat split.
  - right. split; [reflexivity|]. eexists (cloned vers tmp), _, _. repeat split.
  - right. split; [reflexivity|]. eexists (described vers tmp out), _, _. repeat split.
  - right. split; [reflexivity|]. eexists (loaded H vers tmp out js), _, _. repeat split.
  - right. split; [reflexivity|].
    eexists (loaded H vers tmp out js ++ [_])%list, _, _.
    rewrite <- app_assoc. repeat split.
  - right. split; [reflexivity|].
    eexists (published H vers tmp out js), _, _. repeat split.
  - right. split; [reflexivity|].
    destruct (LoopTrace_last Hl) as (t0 & e & line & -> & He & H0).
    exists (listed H vers tmp out js pkgs ++ t0)%list, e, line.
    rewrite <- app_assoc, existsb_app, failedCall_listed. repeat split; assumption.
  - right. split; [reflexivity|].
    eexists (listed H vers tmp out js pkgs ++ t)%list, _, _.
    rewrite <- app_assoc, existsb_app, failedCall_listed, (LoopTrace_last Hl).
    repeat split.
  - left. split; [reflexivity|].
    rewrite !existsb_app, failedCall_listed, (LoopTrace_last Hl). reflexivity.
Qed.

Lemma first_error_ends_the_run_witness :
  (@Exited unit 1 = Returned tt
   /\ existsb failedCall (runOf (scripted "v1.2" ["a"; "b"] [] (compiling "b")) "main")
      = false)
  \/ (@Exited unit 1 = Exited 1
      /\ exists t0 e line,
           runOf (scripted "v1.2" ["a"; "b"] [] (compiling "b")) "main"
           = (t0 ++ [e; EvLog line])%list
           /\ failedCall e = true /\ existsb failedCall t0 = false).
Proof.
  apply (@first_error_ends_the_run asciiText unit
           (scripted "v1.2" ["a"; "b"] [] (compiling "b")) "main" tt (Exited 1) tt).
  vm_compute. reflexivity.
Defined.

(** ** The deferred removal *)

Section Deferred.
Context {T : Text} {S : Type} (H : Host S).

Lemma removal_loop tmp pkgs r t :
  LoopTrace H tmp pkgs r t -> existsb removal t = false.
Proof.
  intros Hl. apply existsb_false_Forall.
  eapply Forall_impl; [|apply (LoopTrace_events Hl)].
  intros e [(line & ->) | (dir & _ & _ & He)]; [reflexivity|].
  apply (removal_example He).
Qed.

Lemma removal_listed vers tmp out js pkgs :
  existsb removal (listed H vers tmp out js pkgs) = false.
Proof.
  destruct (setup_quiet (listed_events H vers tmp out js pkgs)) as (_ & _ & Hr & _).
  exact Hr.
Qed.
End Deferred.

(** [defer os.RemoveAll(tmp)] runs only when [gen] returns.  A run that
    exits by [log.Fatalf] never calls [os.RemoveAll]: the temporary
    directory stays.  A run that returns calls it once, as its last
    call, on the directory [os.MkdirTemp] returned. *)
Theorem removal_only_when_gen_returns {T : Text} {S : Type} (H : Host S)
    vers s o s' t :
  gen H vers s = (o, s', t) ->
  match o with
  | Exited _ => existsb removal t = false
  | Returned _ =>
      exists tmp t0 r,
        created t = Some tmp /\ t = (t0 ++ [EvRemoveAll tmp r])%list
        /\ existsb removal t0 = false
  end.
Proof.
  intros Hrun. apply gen_trace in Hrun. destruct Hrun as (b & Ht & ->).
  destruct Ht as [e|tmp e|tmp out e|tmp out e|tmp out js e|tmp out js e|tmp out js e
                 |tmp out js pkgs t Hl|tmp out js pkgs done t e Hl
                 |tmp out js pkgs done t r Hl]; try reflexivity.
  - now rewrite existsb_app, removal_listed, (removal_loop Hl).
  - now rewrite !existsb_app, removal_listed, (removal_loop Hl).
  - exists tmp,
      (listed H vers tmp out js pkgs ++ t
       ++ [EvWriteFile "index.html" (indexPage (TrimSpace out) done) 420 None])%list, r.
    split; [apply listed_shows|]. split.
    + now rewrite <- !app_assoc.
    + now rewrite !existsb_app, removal_listed, (removal_loop Hl).
Qed.

Lemma removal_only_when_gen_returns_witness :
  exists tmp t0 r,
    created (runOf (scripted "v1.2" ["a"; "sketch"] [] never) "main") = Some tmp
    /\ runOf (scripted "v1.2" ["a"; "sketch"] [] never) "main"
       = (t0 ++ [EvRemoveAll tmp r])%list
    /\ existsb removal t0 = false.
Proof.
  apply (@removal_only_when_gen_returns asciiText unit
           (scripted "v1.2" ["a"; "sketch"] [] never) "main" tt (Returned tt) tt).
  vm_compute. reflexivity.
Defined.

(** ** What is staged *)

Section Staging.
Context {T : Text} {S : Type} (H : Host S).

(** The loop stages the artifacts of the directories that are not
    excluded, in their order, as far as it comes. *)
Lemma staged_loop tmp pkgs r t :
  LoopTrace H tmp pkgs r t ->
  exists rest,
    map artifactOf (filter notExcluded pkgs) = (staged t ++ rest)%list
    /\ (r <> None -> rest = []).
Proof.
  induction 1 as [|dir rest r t Hex _ IH|dir rest wasm r t Hex _ IH|dir rest t Hex Hf];
    cbn [filter]; unfold notExcluded at 1 || idtac; try rewrite Hex; cbn [negb map].
  - now exists [].
  - destruct IH as (more & E & Hr). exists more. split; [exact E | exact Hr].
  - destruct IH as (more & E & Hr). exists more. split.
    + rewrite staged_app, staged_processed, E. reflexivity.
    + intros Hn. apply Hr. now destruct r.
  - rewrite (staged_fails Hf). eexists. split; [reflexivity|]. intros Hn. now contradiction Hn.
Qed.

Lemma artifacts_entry pkgs :
  Forall (fun d => entryName d = true) pkgs ->
  map artifactOf (filter notExcluded pkgs)
  = map (fun dir => "example/" ++ dir ++ "/" ++ dir ++ ".wasm") (filter notExcluded pkgs).
Proof.
  induction 1 as [|d pkgs Hd _ IH]; [reflexivity|].
  cbn [filter]. destruct (notExcluded d); [|exact IH].
  cbn [map]. now rewrite IH, (artifactOf_entry _ Hd).
Qed.
End Staging.

(** What a run stages follows the listing: the files given to
    [git add] are the artifacts [example/dir/dir.wasm] of the
    directories of the listing that are not excluded, in the order of
    the listing, up to the example the run ends at; all of them when the
    run returns. *)
Theorem staged_artifacts_follow_the_listing {T : Text} {S : Type} (H : Host S)
    vers s o s' t pkgs :
  gen H vers s = (o, s', t) ->
  listing t = Some pkgs ->
  Forall (fun d => entryName d = true) pkgs ->
  exists rest,
    map (fun dir => "example/" ++ dir ++ "/" ++ dir ++ ".wasm") (filter notExcluded pkgs)
    = (staged t ++ rest)%list
    /\ (o = Returned tt -> rest = []).
Proof.
  intros Hrun Hl Hv. apply gen_trace in Hrun. destruct Hrun as (b & Ht & ->).
  rewrite <- (artifacts_entry Hv).
  destruct Ht as [e|tmp e|tmp out e|tmp out e|tmp out js e|tmp out js e|tmp out js e
                 |tmp out js pkgs' t Hloop|tmp out js pkgs' done t e Hloop
                 |tmp out js pkgs' done t r Hloop];
    try (cbn in Hl; discriminate);
    rewrite (proj2 (proj2 (listed_shows H _ _ _ _ _ _))) in Hl; injection Hl as ->;
    destruct (staged_loop Hloop) as (rest & E & Hr);
    rewrite !staged_app, staged_listed; cbn [app staged flat_map stagedBy];
    rewrite ?app_nil_r.
  - exists rest. split; [exact E | discriminate].
  - exists rest. split; [exact E | discriminate].
  - exists rest. split; [exact E|]. intros _. apply Hr. discriminate.
Qed.

Lemma staged_artifacts_follow_the_listing_witness :
  exists rest,
    map (fun dir => "example/" ++ dir ++ "/" ++ dir ++ ".wasm")
      (filter notExcluded ["a"; "b"; "sketch"; "z"])
    = (staged (runOf (scripted "v1.2" ["a"; "b"; "sketch"; "z"] [] (compiling "z")) "main")
       ++ rest)%list
    /\ (@Exited unit 1 = Returned tt -> rest = []).
Proof.
  apply (@staged_artifacts_follow_the_listing asciiText unit
           (scripted "v1.2" ["a"; "b"; "sketch"; "z"] [] (compiling "z")) "main"
           tt (Exited 1) tt).
  - vm_compute. reflexivity.
  - vm_compute. reflexivity.
  - repeat constructor.
Defined.

(** ** The artifact of an example *)

Lemma wasm_not_index d : d ++ ".wasm" <> "index.html".
Proof.
  intros E. assert (Hlen : String.length d = 5).
  { apply (f_equal String.length) in E. rewrite length_append in E. cbn in E. lia. }
  destruct d as [|c1 [|c2 [|c3 [|c4 [|c5 [|c6 d]]]]]]; try discriminate Hlen.
  cbn in E. discriminate E.
Qed.

Lemma written_cons_log path line t : written path (EvLog line :: t) = written path t.
Proof. cbn [written]. now destruct (written path t). Qed.

Lemma written_some_app path t1 t2 data :
  written path t2 = Some data -> written path (t1 ++ t2) = Some data.
Proof. intros E. now rewrite written_app, E. Qed.

Section Artifact.
Context {T : Text} {S : Type} (H : Host S).

Lemma artifact_not_page d :
  entryName d = true -> String.eqb (artifactOf d) (pageOf d) = false.
Proof.
  intros Hd. rewrite (artifactOf_entry _ Hd), (pageOf_entry _ Hd).
  apply String.eqb_neq. intros E. apply append_inj_l, append_inj_l in E.
  injection E as E. now apply wasm_not_index in E.
Qed.

(** An event of another example writes neither the artifact nor the
    page of [d]. *)
Lemma wrote_other tmp x d e :
  ExampleEvent H tmp x e -> entryName x = true -> entryName d = true -> x <> d ->
  wrote (artifactOf d) e = false /\ wrote (pageOf d) e = false.
Proof.
  intros He Hx Hd Hne.
  assert (Hp : forall rest rest',
             "example/" ++ x ++ String slash rest <> "example/" ++ d ++ String slash rest').
  { intros rest rest' E. apply Hne. eapply page_inj; eassumption. }
  rewrite (artifactOf_entry _ Hd), (pageOf_entry _ Hd).
  destruct He; cbn [wrote]; try (split; reflexivity); destruct r; try (split; reflexivity).
  - rewrite (pageOf_entry _ Hx). split; apply String.eqb_neq; exact (Hp _ _).
  - rewrite (artifactOf_entry _ Hx). split; apply String.eqb_neq; exact (Hp _ _).
Qed.

Lemma written_other tmp pkgs r t d :
  LoopTrace H tmp pkgs r t -> Forall (fun x => entryName x = true) pkgs ->
  entryName d = true -> ~ In d pkgs ->
  written (artifactOf d) t = None /\ written (pageOf d) t = None.
Proof.
  intros Hl Hv Hd Hnot. rewrite Forall_forall in Hv.
  assert (Hboth : forall e, LoopEvent H tmp pkgs e ->
                            wrote (artifactOf d) e = false /\ wrote (pageOf d) e = false).
  { intros e [(line & ->) | (x & Hin & _ & He)]; [split; reflexivity|].
    refine (wrote_other He (Hv x Hin) Hd _). intros ->. contradiction. }
  pose proof (LoopTrace_events Hl) as Hev.
  split; apply written_none; (eapply Forall_impl; [|exact Hev]); intros e He;
    destruct (Hboth e He) as [Ha Hp]; assumption.
Qed.

Lemma staged_loop_in tmp pkgs r t d :
  LoopTrace H tmp pkgs r t -> Forall (fun x => entryName x = true) pkgs ->
  entryName d = true -> In (artifactOf d) (staged t) -> In d pkgs.
Proof.
  intros Hl Hv Hd Hin. destruct (staged_loop Hl) as (rest & E & _).
  assert (Hin' : In (artifactOf d) (map artifactOf (filter notExcluded pkgs))).
  { rewrite E. apply in_or_app. now left. }
  apply in_map_iff in Hin'. destruct Hin' as (x & Ex & Hx).
  apply filter_In in Hx. destruct Hx as [Hx _].
  rewrite Forall_forall in Hv. apply artifactOf_inj in Ex; [now subst|now apply Hv|assumption].
Qed.

Lemma written_processed tmp d wasm :
  entryName d = true ->
  written (artifactOf d) (processed H tmp d wasm) = Some wasm
  /\ written (pageOf d) (processed H tmp d wasm) = Some (pageHTML d).
Proof.
  intros Hd. unfold processed, copied, paged, compiled. cbn [app written].
  rewrite (artifact_not_page _ Hd), !String.eqb_refl. split; reflexivity.
Qed.

(** In the loop, a staged artifact was written with what was read from
    the build output of its example, and its page was written. *)
Lemma loop_published tmp pkgs r t :
  LoopTrace H tmp pkgs r t ->
  Forall (fun x => entryName x = true) pkgs -> NoDup pkgs ->
  forall d, In d pkgs -> In (artifactOf d) (staged t) ->
    exists wasm,
      In (EvReadFile (binOf tmp d) (inl wasm)) t
      /\ written (artifactOf d) t = Some wasm
      /\ written (pageOf d) t = Some (pageHTML d).
Proof.
  induction 1 as [|dir rest r t Hex Hl IH|dir rest wasm r t Hex Hl IH|dir rest t Hex Hf];
    intros Hv Hnd d Hin Hst.
  - contradiction.
  - inversion Hv as [|? ? Hdir Hv']; subst. inversion Hnd as [|? ? Hnot Hnd']; subst.
    change (staged (?e :: t)) with (staged t) in Hst.
    assert (Hd : In d rest).
    { destruct Hin as [<- | Hin]; [|assumption].
      eapply staged_loop_in; eassumption. }
    destruct (IH Hv' Hnd' d Hd Hst) as (w & Hr & Ha & Hp).
    exists w. rewrite !written_cons_log. repeat split; [now right | assumption | assumption].
  - inversion Hv as [|? ? Hdir Hv']; subst. inversion Hnd as [|? ? Hnot Hnd']; subst.
    rewrite staged_app, staged_processed in Hst. cbn [app] in Hst.
    assert (Hd : entryName d = true).
    { rewrite Forall_forall in Hv. now apply Hv. }
    destruct Hst as [Hst | Hst].
    + apply artifactOf_inj in Hst; [|assumption|assumption]. subst d.
      assert (Hw : written (artifactOf dir) t = None /\ written (pageOf dir) t = None)
        by (eapply written_other; eassumption).
      destruct Hw as (Ha & Hp).
      destruct (written_processed tmp dir wasm Hdir) as (Ha' & Hp').
      exists wasm. rewrite !written_app, Ha, Hp. repeat split; try assumption.
      apply in_or_app. left. unfold processed, copied. cbn. auto 10.
    + assert (Hd' : In d rest).
      { eapply staged_loop_in; eassumption. }
      destruct (IH Hv' Hnd' d Hd' Hst) as (w & Hr & Ha & Hp).
      exists w. repeat split.
      * apply in_or_app. now right.
      * now apply written_some_app.
      * now apply written_some_app.
  - rewrite (staged_fails Hf) in Hst. contradiction.
Qed.
End Artifact.

(** A staged artifact is the build output: for a directory of the
    listing whose artifact [example/dir/dir.wasm] was given to
    [git add], the artifact was last written with what was read from
    [tmp/bin/dir.wasm], and the page [example/dir/index.html] was last
    written with the page of [dir]; nothing of the run overwrote them. *)
Theorem staged_artifact_is_the_build_output {T : Text} {S : Type} (H : Host S)
    vers s o s' t tmp pkgs :
  gen H vers s = (o, s', t) ->
  created t = Some tmp -> listing t = Some pkgs ->
  Forall (fun d => entryName d = true) pkgs -> NoDup pkgs ->
  forall dir,
    In dir pkgs ->
    In ("example/" ++ dir ++ "/" ++ dir ++ ".wasm") (staged t) ->
    exists wasm,
      In (EvReadFile (Join [tmp; "bin"; dir ++ ".wasm"]) (inl wasm)) t
      /\ written ("example/" ++ dir ++ "/" ++ dir ++ ".wasm") t = Some wasm
      /\ written ("example/" ++ dir ++ "/index.html") t = Some (pageHTML dir).
Proof.
  intros Hrun Hc Hl Hv Hnd dir Hin Hst.
  assert (Hd : entryName dir = true).
  { rewrite Forall_forall in Hv. now apply Hv. }
  apply gen_trace in Hrun. destruct Hrun as (b & Ht & _).
  assert (Hloop : forall tmp' loop r,
            LoopTrace H tmp' pkgs r loop -> tmp' = tmp ->
            In (artifactOf dir) (staged loop) ->
            exists wasm,
              In (EvReadFile (Join [tmp; "bin"; dir ++ ".wasm"]) (inl wasm)) loop
              /\ written ("example/" ++ dir ++ "/" ++ dir ++ ".wasm") loop = Some wasm
              /\ written ("example/" ++ dir ++ "/index.html") loop = Some (pageHTML dir)).
  { intros tmp' loop r Hlp -> Hs.
    destruct (loop_published Hlp Hv Hnd dir Hin Hs) as (w & Hr & Ha & Hp).
    unfold binOf in Hr.
    rewrite (pkgOf_entry _ Hd) in Hr. rewrite (artifactOf_entry _ Hd) in Ha.
    rewrite (pageOf_entry _ Hd) in Hp. now exists w. }
  rewrite <- (artifactOf_entry _ Hd) in Hst.
  destruct Ht as [e|tmp' e|tmp' out e|tmp' out e|tmp' out js e|tmp' out js e|tmp' out js e
                 |tmp' out js pkgs' t Hlp|tmp' out js pkgs' done t e Hlp
                 |tmp' out js pkgs' done t r Hlp];
    try (cbn in Hl; discriminate);
    rewrite (proj2 (proj2 (listed_shows H _ _ _ _ _ _))) in Hl; injection Hl as ->;
    rewrite (proj1 (listed_shows H _ _ _ _ _ _)) in Hc; injection Hc as Hc;
    rewrite !staged_app, staged_listed in Hst; cbn [app staged flat_map stagedBy] in Hst;
    rewrite ?app_nil_r in Hst;
    destruct (Hloop _ _ _ Hlp Hc Hst) as (w & Hr & Ha & Hp); exists w.
  - repeat split.
    + apply in_or_app. now right.
    + now apply written_some_app.
    + now apply written_some_app.
  - repeat split.
    + apply in_or_app. right. apply in_or_app. now left.
    + apply written_some_app. rewrite written_app. cbn [written]. exact Ha.
    + apply written_some_app. rewrite written_app. cbn [written]. exact Hp.
  - repeat split.
    + apply in_or_app. right. apply in_or_app. now left.
    + apply written_some_app. rewrite written_app.
      cbn [written String.eqb Ascii.eqb Bool.eqb append]. exact Ha.
    + apply written_some_app. rewrite written_app.
      cbn [written String.eqb Ascii.eqb Bool.eqb append]. exact Hp.
Qed.

Lemma staged_artifact_is_the_build_output_witness :
  exists wasm,
    In (EvReadFile (Join ["/tmp/go-p5-gen-1"; "bin"; "b" ++ ".wasm"]) (inl wasm))
      (runOf (scripted "v1.2" ["a"; "b"; "sketch"] [] never) "main")
    /\ written ("example/" ++ "b" ++ "/" ++ "b" ++ ".wasm")
         (runOf (scripted "v1.2" ["a"; "b"; "sketch"] [] never) "main") = Some wasm
    /\ written ("example/" ++ "b" ++ "/index.html")
         (runOf (scripted "v1.2" ["a"; "b"; "sketch"] [] never) "main")
       = Some (@pageHTML asciiText "b").
Proof.
  apply (@staged_artifact_is_the_build_output asciiText unit
           (scripted "v1.2" ["a"; "b"; "sketch"] [] never) "main" tt (Returned tt) tt
           _ _ ["a"; "b"; "sketch"]).
  - vm_compute. reflexivity.
  - vm_compute. reflexivity.
  - vm_compute. reflexivity.
  - repeat constructor.
  - repeat constructor; simpl; intuition discriminate.
  - simpl. tauto.
  - vm_compute. tauto.
Defined.

(** ** The bootstrap script *)

Lemma Join_assets : Join ["assets"; "wasm_exec.js"] = "assets/wasm_exec.js".
Proof. reflexivity. Qed.

Section Bootstrap.
Context {T : Text} {S : Type} (H : Host S).

Lemma wrote_bootstrap_example tmp dir e :
  ExampleEvent H tmp dir e -> entryName dir = true ->
  wrote "assets/wasm_exec.js" e = false.
Proof.
  intros He Hd. destruct He; cbn [wrote]; try reflexivity; destruct r; try reflexivity.
  - now rewrite (pageOf_entry _ Hd).
  - now rewrite (artifactOf_entry _ Hd).
Qed.

Lemma written_bootstrap_loop tmp pkgs r t :
  LoopTrace H tmp pkgs r t -> Forall (fun d => entryName d = true) pkgs ->
  written "assets/wasm_exec.js" t = None.
Proof.
  intros Hl Hv. apply written_none. rewrite Forall_forall in Hv.
  eapply Forall_impl; [|apply (LoopTrace_events Hl)].
  intros e [(line & ->) | (dir & Hin & _ & He)]; [reflexivity|].
  exact (wrote_bootstrap_example He (Hv dir Hin)).
Qed.

Lemma written_bootstrap_listed vers tmp out js pkgs :
  written "assets/wasm_exec.js" (listed H vers tmp out js pkgs) = Some js.
Proof.
  unfold listed. rewrite written_app.
  replace (written "assets/wasm_exec.js"
             (EvReadDir (Join [tmp; "p5"; "example"]) (inl pkgs)
              :: map (fun p => EvLog (logLine (Sprintf ">>> %+v" [p]))) pkgs))
    with (@None string).
  - unfold published. rewrite written_app. cbn [written]. now rewrite Join_assets.
  - symmetry. apply written_none. constructor; [reflexivity|].
    induction pkgs; constructor; [reflexivity | assumption].
Qed.

Lemma bootstrap_listed vers tmp out js pkgs :
  In (EvReadFile (wasmExec H) (inl js)) (listed H vers tmp out js pkgs)
  /\ existsb (mkdirOf "assets") (listed H vers tmp out js pkgs) = true.
Proof.
  unfold listed, published, loaded. split.
  - apply in_or_app. left. apply in_or_app. left. apply in_or_app. right. now left.
  - rewrite !existsb_app. cbn [existsb mkdirOf String.eqb Ascii.eqb Bool.eqb orb].
    now rewrite orb_true_r.
Qed.
End Bootstrap.

(** The bootstrap script is published as it is: in a run that comes to
    the listing of the examples, [assets] was made and
    [assets/wasm_exec.js] holds, at the end of the run, what was read
    from [misc/wasm/wasm_exec.js] under [runtime.GOROOT()]. *)
Theorem bootstrap_script_is_copied {T : Text} {S : Type} (H : Host S)
    vers s o s' t pkgs :
  gen H vers s = (o, s', t) ->
  listing t = Some pkgs ->
  Forall (fun d => entryName d = true) pkgs ->
  exists js,
    In (EvReadFile (Join [Join [GOROOT H; "misc"; "wasm"]; "wasm_exec.js"]) (inl js)) t
    /\ existsb (mkdirOf "assets") t = true
    /\ written "assets/wasm_exec.js" t = Some js.
Proof.
  intros Hrun Hl Hv. apply gen_trace in Hrun. destruct Hrun as (b & Ht & _).
  destruct Ht as [e|tmp e|tmp out e|tmp out e|tmp out js e|tmp out js e|tmp out js e
                 |tmp out js pkgs' t Hlp|tmp out js pkgs' done t e Hlp
                 |tmp out js pkgs' done t r Hlp];
    try (cbn in Hl; discriminate);
    rewrite (proj2 (proj2 (listed_shows H _ _ _ _ _ _))) in Hl; injection Hl as ->;
    destruct (bootstrap_listed H vers tmp out js pkgs) as (Hr & Hm);
    exists js; (split; [apply in_or_app; now left|]);
    (split; [now rewrite existsb_app, Hm|]);
    rewrite !written_app, (written_bootstrap_loop Hlp Hv), written_bootstrap_listed.
  - reflexivity.
  - reflexivity.
  - reflexivity.
Qed.

Lemma bootstrap_script_is_copied_witness :
  exists js,
    In (EvReadFile (Join [Join ["/usr/local/go"; "misc"; "wasm"]; "wasm_exec.js"]) (inl js))
      (runOf (scripted "v1.2" ["a"; "b"] [] (compiling "b")) "main")
    /\ existsb (mkdirOf "assets") (runOf (scripted "v1.2" ["a"; "b"] [] (compiling "b")) "main")
       = true
    /\ written "assets/wasm_exec.js"
         (runOf (scripted "v1.2" ["a"; "b"] [] (compiling "b")) "main") = Some js.
Proof.
  apply (@bootstrap_script_is_copied asciiText unit
           (scripted "v1.2" ["a"; "b"] [] (compiling "b")) "main" tt (Exited 1) tt
           _ ["a"; "b"]).
  - vm_compute. reflexivity.
  - vm_compute. reflexivity.
  - repeat constructor.
Defined.

(** ** The compile commands *)

Section Builds.
Context {T : Text} {S : Type} (H : Host S).

Lemma compileCmds_app t1 t2 :
  compileCmds (t1 ++ t2) = (compileCmds t1 ++ compileCmds t2)%list.
Proof. apply flat_map_app. Qed.

Lemma compileCmds_setup vers tmp l :
  Forall (SetupEvent H vers tmp) l -> compileCmds l = [].
Proof.
  induction 1 as [|e l He _ IH]; [reflexivity|].
  unfold compileCmds. cbn [flat_map]. fold (compileCmds l). rewrite IH.
  destruct He; reflexivity.
Qed.

Lemma compileCmds_loop tmp pkgs r t c :
  LoopTrace H tmp pkgs r t -> In c (compileCmds t) ->
  exists dir, In dir pkgs /\ excluded dir = false /\ c = buildCmd H tmp ("example/" ++ dir).
Proof.
  intros Hl Hc. unfold compileCmds in Hc. apply in_flat_map in Hc.
  destruct Hc as (e & He & Hc).
  pose proof (LoopTrace_events Hl) as Hev. rewrite Forall_forall in Hev.
  destruct (Hev e He) as [(line & ->) | (dir & Hin & Hex & Hx)]; [contradiction|].
  exists dir. split; [assumption|]. split; [assumption|].
  destruct Hx; cbn in Hc; try contradiction.
  destruct Hc as [<- | []]. reflexivity.
Qed.
End Builds.

(** Every run of [go] in a run of [gen] is the build of an example: of
    a directory of the listing that is not excluded, in the checkout
    [tmp/p5], to the output [../bin/pkg.wasm], with the three target
    variables followed by the environment of the process, and with the
    output passed to the terminal. *)
Theorem every_compile_is_a_build_of_an_example {T : Text} {S : Type} (H : Host S)
    vers s o s' t c :
  gen H vers s = (o, s', t) ->
  In c (compileCmds t) ->
  exists tmp pkgs dir,
    created t = Some tmp /\ listing t = Some pkgs
    /\ In dir pkgs /\ excluded dir = false
    /\ Name c = "go"
    /\ Args c = ["build"; "-o"; "../bin/" ++ Base ("example/" ++ dir) ++ ".wasm";
                 "./example/" ++ dir]
    /\ Dir c = Join [tmp; "p5"]
    /\ Env c = Some (app ["GOBIN=" ++ tmp ++ "/bin"; "GOOS=js"; "GOARCH=wasm"] (Environ H))
    /\ Stdio c = true.
Proof.
  intros Hrun Hc. apply gen_trace in Hrun. destruct Hrun as (b & Ht & _).
  assert (Hsetup : forall tmp l, Forall (SetupEvent H vers tmp) l -> compileCmds l = []).
  { intros tmp l. apply compileCmds_setup. }
  destruct Ht as [e|tmp e|tmp out e|tmp out e|tmp out js e|tmp out js e|tmp out js e
                 |tmp out js pkgs t Hlp|tmp out js pkgs done t e Hlp
                 |tmp out js pkgs done t r Hlp].
  1: rewrite (Hsetup "") in Hc by (repeat constructor); contradiction.
  1-6: rewrite (Hsetup tmp) in Hc by (repeat constructor); contradiction.
  all: rewrite !compileCmds_app, (Hsetup tmp _ (listed_events H vers tmp out js pkgs)) in Hc;
    cbn [app compileCmds flat_map] in Hc; rewrite ?app_nil_r in Hc;
    destruct (compileCmds_loop c Hlp Hc) as (dir & Hin & Hex & ->);
    exists tmp, pkgs, dir;
    (split; [apply listed_shows|]); (split; [apply listed_shows|]);
    repeat split; assumption.
Qed.

Lemma every_compile_is_a_build_of_an_example_witness :
  exists tmp pkgs dir,
    created (runOf (scripted "v1.2" ["a"] ["HOME=/root"] never) "main") = Some tmp
    /\ listing (runOf (scripted "v1.2" ["a"] ["HOME=/root"] never) "main") = Some pkgs
    /\ In dir pkgs /\ excluded dir = false
    /\ Name (@buildCmd unit (scripted "v1.2" ["a"] ["HOME=/root"] never)
               "/tmp/go-p5-gen-1" "example/a") = "go"
    /\ Args (@buildCmd unit (scripted "v1.2" ["a"] ["HOME=/root"] never)
               "/tmp/go-p5-gen-1" "example/a")
       = ["build"; "-o"; "../bin/" ++ Base ("example/" ++ dir) ++ ".wasm";
          "./example/" ++ dir]
    /\ Dir (@buildCmd unit (scripted "v1.2" ["a"] ["HOME=/root"] never)
              "/tmp/go-p5-gen-1" "example/a") = Join [tmp; "p5"]
    /\ Env (@buildCmd unit (scripted "v1.2" ["a"] ["HOME=/root"] never)
              "/tmp/go-p5-gen-1" "example/a")
       = Some (app ["GOBIN=" ++ tmp ++ "/bin"; "GOOS=js"; "GOARCH=wasm"]
                 (Environ (scripted "v1.2" ["a"] ["HOME=/root"] never)))
    /\ Stdio (@buildCmd unit (scripted "v1.2" ["a"] ["HOME=/root"] never)
                "/tmp/go-p5-gen-1" "example/a") = true.
Proof.
  apply (@every_compile_is_a_build_of_an_example asciiText unit
           (scripted "v1.2" ["a"] ["HOME=/root"] never) "main" tt (Returned tt) tt).
  - vm_compute. reflexivity.
  - vm_compute. now left.
Defined.

(** ** The revision query *)

Lemma Sprintf_no_revision {T : Text} revision e :
  Sprintf ("could not retrieve git revision:" ++ nl ++ "%s" ++ nl ++ "err: %+v")
    [revision; e]
  = "could not retrieve git revision:" ++ nl ++ revision ++ nl ++ "err: " ++ e.
Proof.
  unfold Sprintf. cbn [append format operand nl extra].
  now rewrite append_nil_r.
Qed.

(** When the revision query returns an error, the run is over after
    four events: the temporary directory, the clone, the query, and the
    line of [log.Fatalf], which carries the output of the query with
    the white space around it trimmed, and the error.  Nothing was read
    or written yet, and the run exits with status 1. *)
Theorem failed_query_ends_the_run {T : Text} {S : Type} (H : Host S)
    vers s o s' t out e :
  gen H vers s = (o, s', t) ->
  queried t = Some (out, Some e) ->
  o = Exited 1
  /\ exists tmp,
       t = [EvMkdirTemp "" "go-p5-gen-" (inl tmp);
            EvRun (cloneCmd vers tmp) None;
            EvCombinedOutput (describeCmd tmp) (out, Some e);
            EvLog (logLine ("could not retrieve git revision:" ++ nl ++ TrimSpace out
                            ++ nl ++ "err: " ++ e))].
Proof.
  intros Hrun Hq. apply gen_trace in Hrun. destruct Hrun as (b & Ht & ->).
  destruct Ht as [e1|tmp e1|tmp out1 e1|tmp out1 e1|tmp out1 js e1|tmp out1 js e1
                 |tmp out1 js e1|tmp out1 js pkgs loop Hloop
                 |tmp out1 js pkgs done loop e1 Hloop
                 |tmp out1 js pkgs done loop r Hloop];
    try (rewrite (proj1 (proj2 (listed_shows H _ _ _ _ _ _))) in Hq; discriminate);
    try (unfold loaded, published, described, cloned in Hq; cbn [app queried] in Hq;
         discriminate).
  unfold cloned in Hq. cbn [app queried] in Hq. injection Hq as -> ->.
  split; [reflexivity|]. exists tmp.
  unfold cloned, fatal. cbn [app]. now rewrite Sprintf_no_revision.
Qed.

Lemma failed_query_ends_the_run_witness :
  @Exited unit 1 = Exited 1
  /\ exists tmp,
       runOf (scripted (nl ++ "fatal: No names found" ++ nl) [] [] describing) "main"
       = [EvMkdirTemp "" "go-p5-gen-" (inl tmp);
          EvRun (cloneCmd "main" tmp) None;
          EvCombinedOutput (describeCmd tmp)
            (nl ++ "fatal: No names found" ++ nl, Some "exit status 128");
          EvLog (logLine ("could not retrieve git revision:" ++ nl
                          ++ @TrimSpace asciiText (nl ++ "fatal: No names found" ++ nl)
                          ++ nl ++ "err: " ++ "exit status 128"))].
Proof.
  apply (@failed_query_ends_the_run asciiText unit
           (scripted (nl ++ "fatal: No names found" ++ nl) [] [] describing)
           "main" tt (Exited 1) tt);
    vm_compute; reflexivity.
Defined.

(** ** The environment of the compile step *)

Lemma existsb_eqb_In k saw : existsb (String.eqb k) saw = true <-> In k saw.
Proof.
  rewrite existsb_exists. split.
  - intros (x & Hx & E). apply String.eqb_eq in E. now subst.
  - intros Hk. exists k. split; [assumption | apply String.eqb_refl].
Qed.

Lemma dedupScan_In l : forall saw x, In x (dedupScan l saw) -> In x l.
Proof.
  induction l as [|kv l IH]; intros saw x Hx; cbn [dedupScan] in Hx; [contradiction|].
  destruct (envKey kv) as [k|].
  - destruct (existsb (String.eqb k) saw).
    + right. exact (IH _ _ Hx).
    + destruct Hx as [<- | Hx]; [now left | right; exact (IH _ _ Hx)].
  - destruct (String.eqb kv "").
    + right. exact (IH _ _ Hx).
    + destruct Hx as [<- | Hx]; [now left | right; exact (IH _ _ Hx)].
Qed.

(** An entry that the scan keeps has a key that was not met before. *)
Lemma dedupScan_fresh l : forall saw x k,
  In x (dedupScan l saw) -> envKey x = Some k -> ~ In k saw.
Proof.
  induction l as [|kv l IH]; intros saw x k Hx Hk; cbn [dedupScan] in Hx; [contradiction|].
  destruct (envKey kv) as [k'|] eqn:Ekv.
  - destruct (existsb (String.eqb k') saw) eqn:Es.
    + exact (IH _ _ _ Hx Hk).
    + destruct Hx as [<- | Hx].
      * rewrite Ekv in Hk. injection Hk as ->. intros Hin.
        apply existsb_eqb_In in Hin. congruence.
      * intros Hin. apply (IH _ _ _ Hx Hk). now right.
  - destruct (String.eqb kv "").
    + exact (IH _ _ _ Hx Hk).
    + destruct Hx as [<- | Hx]; [congruence | exact (IH _ _ _ Hx Hk)].
Qed.

Lemma dedupScan_app a : forall b saw,
  dedupScan (a ++ b) saw = (dedupScan a saw ++ dedupScan b (seenKeys a saw))%list.
Proof.
  induction a as [|kv a IH]; intros b saw; cbn [app dedupScan seenKeys]; [reflexivity|].
  destruct (envKey kv) as [k|].
  - destruct (existsb (String.eqb k) saw); [apply IH|].
    cbn [app]. now rewrite IH.
  - destruct (String.eqb kv ""); [apply IH|]. cbn [app]. now rewrite IH.
Qed.

Lemma seenKeys_keeps a : forall saw k, In k saw -> In k (seenKeys a saw).
Proof.
  induction a as [|kv a IH]; intros saw k Hk; cbn [seenKeys]; [assumption|].
  destruct (envKey kv) as [k'|]; [|now apply IH].
  destruct (existsb (String.eqb k') saw); apply IH; [assumption | now right].
Qed.

Lemma seenKeys_key a : forall saw kv k,
  In kv a -> envKey kv = Some k -> In k (seenKeys a saw).
Proof.
  induction a as [|kv' a IH]; intros saw kv k Hin Hk; [contradiction|].
  cbn [seenKeys]. destruct Hin as [-> | Hin].
  - rewrite Hk. destruct (existsb (String.eqb k) saw) eqn:Es.
    + apply seenKeys_keeps. now apply existsb_eqb_In.
    + apply seenKeys_keeps. now left.
  - destruct (envKey kv') as [k'|]; [|exact (IH _ _ _ Hin Hk)].
    destruct (existsb (String.eqb k') saw); exact (IH _ _ _ Hin Hk).
Qed.

(** Of the entries of [front ++ back] the child gets, one with a key
    that [back] sets comes from [back]. *)
Lemma dedupEnv_back_wins front back kv k x :
  In kv back -> envKey kv = Some k ->
  In x (dedupEnv (front ++ back)) -> envKey x = Some k -> In x back.
Proof.
  intros Hkv Hk Hx Hxk. unfold dedupEnv in Hx. apply in_rev in Hx.
  rewrite rev_app_distr, dedupScan_app in Hx. apply in_app_or in Hx.
  destruct Hx as [Hx | Hx].
  - apply dedupScan_In in Hx. now apply in_rev in Hx.
  - exfalso. apply (dedupScan_fresh _ _ _ Hx Hxk).
    apply (seenKeys_key (rev back) [] kv); [|assumption]. now apply in_rev in Hkv.
Qed.

(** The target variables do not take precedence.  The compile command
    is given the three target variables first and the environment of
    the process after them, and [os/exec] keeps the last entry of a
    key: for a key that the environment of the process sets, the entry
    the compiler is started with is one of that environment.  With
    [GOOS=linux] in the environment the compiler does not get
    [GOOS=js]. *)
Theorem inherited_variable_replaces_target {T : Text} {S : Type} (H : Host S)
    vers s o s' t c kv k x :
  gen H vers s = (o, s', t) ->
  In c (compileCmds t) ->
  In kv (Environ H) -> envKey kv = Some k ->
  In x (childEnv (Environ H) c) -> envKey x = Some k ->
  In x (Environ H).
Proof.
  intros Hrun Hc Hkv Hk Hx Hxk. apply gen_trace in Hrun. destruct Hrun as (b & Ht & _).
  assert (Henv : exists tmp,
             Env c = Some (app ["GOBIN=" ++ tmp ++ "/bin"; "GOOS=js"; "GOARCH=wasm"]
                             (Environ H))).
  { assert (Hsetup : forall tmp l, Forall (SetupEvent H vers tmp) l -> compileCmds l = []).
    { intros tmp l. apply compileCmds_setup. }
    destruct Ht as [e|tmp e|tmp out e|tmp out e|tmp out js e|tmp out js e|tmp out js e
                   |tmp out js pkgs t Hlp|tmp out js pkgs done t e Hlp
                   |tmp out js pkgs done t r Hlp].
    1: rewrite (Hsetup "") in Hc by (repeat constructor); contradiction.
    1-6: rewrite (Hsetup tmp) in Hc by (repeat constructor); contradiction.
    all: rewrite !compileCmds_app, (Hsetup tmp _ (listed_events H vers tmp out js pkgs)) in Hc;
      cbn [app compileCmds flat_map] in Hc; rewrite ?app_nil_r in Hc;
      destruct (compileCmds_loop c Hlp Hc) as (dir & _ & _ & ->);
      now exists tmp. }
  destruct Henv as (tmp & Henv). unfold childEnv in Hx. rewrite Henv in Hx.
  exact (dedupEnv_back_wins _ _ kv x Hkv Hk Hx Hxk).
Qed.

Lemma inherited_variable_replaces_target_witness :
  In "GOOS=linux" (Environ (scripted "v1.2" ["a"] ["HOME=/root"; "GOOS=linux"] never)).
Proof.
  apply (@inherited_variable_replaces_target asciiText unit
           (scripted "v1.2" ["a"] ["HOME=/root"; "GOOS=linux"] never) "main" tt
           (Returned tt) tt
           (runOf (scripted "v1.2" ["a"] ["HOME=/root"; "GOOS=linux"] never) "main")
           (@buildCmd unit (scripted "v1.2" ["a"] ["HOME=/root"; "GOOS=linux"] never)
              "/tmp/go-p5-gen-1" "example/a")
           "GOOS=linux" "GOOS" "GOOS=linux").
  - vm_compute. reflexivity.
  - vm_compute. now left.
  - vm_compute. auto.
  - reflexivity.
  - vm_compute. auto.
  - reflexivity.
Defined.

(** ** The page of an example *)

Lemma indexHTML_parts : indexHTML = indexBefore ++ "%s" ++ indexBetween ++ "%s" ++ indexAfter.
Proof. reflexivity. Qed.





(** ** The files the process touches *)

Lemma parentsFrom_entry pre d : noSlash d = true -> parentsFrom pre d = [].
Proof.
  revert pre. induction d as [|c d IH]; intros pre Hd; [reflexivity|].
  cbn [noSlash] in Hd. apply andb_true_iff in Hd. destruct Hd as [Hc Hd].
  apply negb_true_iff in Hc. cbn [parentsFrom]. rewrite Hc. cbn [andb app].
  now apply IH.
Qed.

(** The directories [os.MkdirAll] makes for an example: [example] and
    the folder of the example in it. *)
Lemma madeBy_example d :
  entryName d = true -> madeBy (exampleName d) = ["example"; "example/" ++ d].
Proof.
  intros Hd. apply entryName_inv in Hd. destruct Hd as (_ & _ & _ & Hs).
  unfold madeBy, exampleName.
  change (parentsFrom "" ("example/" ++ d))
    with (["example"] ++ parentsFrom "example/" d)%list.
  now rewrite (@parentsFrom_entry "example/" d Hs).
Qed.

Section Touched.
Context {T : Text} {S : Type} (H : Host S).

Lemma mutated_setup vers tmp pkgs e path :
  SetupEvent H vers tmp e -> In path (mutated e) ->
  Some tmp = Some path \/ In path (outputs pkgs).
Proof.
  destruct 1; intros Hin; try (cbn [mutated] in Hin; contradiction).
  - destruct Hin as [<- | []]. now left.
  - change (mutated (EvMkdirAll "assets" 493 r)) with ["assets"] in Hin.
    destruct Hin as [<- | []]. right. now left.
  - destruct Hin as [<- | []]. right. right. now left.
Qed.

Lemma mutated_example tmp pkgs dir e path :
  ExampleEvent H tmp dir e -> entryName dir = true ->
  In dir pkgs -> excluded dir = false ->
  In path (mutated e) -> In path (outputs pkgs).
Proof.
  intros He Hd Hin Hex Hp. unfold outputs. apply in_or_app. right.
  apply in_flat_map. exists dir. split.
  { apply filter_In. split; [assumption|]. unfold notExcluded. now rewrite Hex. }
  unfold exampleOutputs.
  destruct He; cbn [mutated] in Hp; try contradiction.
  - rewrite (@madeBy_example dir Hd) in Hp. destruct Hp as [<- | [<- | []]].
    + now left.
    + right. now left.
  - destruct Hp as [<- | []]. rewrite (pageOf_entry _ Hd). right. right. now left.
  - destruct Hp as [<- | []]. rewrite (artifactOf_entry _ Hd). right. right. right. now left.
Qed.

Lemma removed_setup vers tmp e : SetupEvent H vers tmp e -> removed e = [].
Proof. destruct 1; reflexivity. Qed.

Lemma removed_example tmp dir e : ExampleEvent H tmp dir e -> removed e = [].
Proof. destruct 1; reflexivity. Qed.

Lemma touched_setup_all vers tmp pkgs l :
  Forall (SetupEvent H vers tmp) l ->
  Forall (touchesOnly (Some tmp) (outputs pkgs)) l.
Proof.
  apply Forall_impl. intros e He. split.
  - intros path Hp. eapply mutated_setup; eassumption.
  - rewrite (removed_setup He). intros path [].
Qed.

Lemma touched_loop tmp pkgs r t :
  LoopTrace H tmp pkgs r t -> Forall (fun d => entryName d = true) pkgs ->
  Forall (touchesOnly (Some tmp) (outputs pkgs)) t.
Proof.
  intros Hl Hv. rewrite Forall_forall in Hv.
  eapply Forall_impl; [|apply (LoopTrace_events Hl)].
  intros e [(line & ->) | (dir & Hin & Hex & He)].
  - split; intros path [].
  - split.
    + intros path Hp. right. eapply mutated_example; try eassumption. exact (Hv dir Hin).
    + rewrite (removed_example He). intros path [].
Qed.
End Touched.

Section Frame.
Context {T : Text} {S : Type} (H : Host S).

(** Every call of a run touches only the temporary directory and the
    outputs. *)
Lemma gen_touches vers s o s' t :
  gen H vers s = (o, s', t) ->
  (forall pkgs, listing t = Some pkgs -> Forall (fun d => entryName d = true) pkgs) ->
  Forall (touchesOnly (created t) (outputs (listedOrNone t))) t.
Proof.
  intros Hrun Hv. apply gen_trace in Hrun. destruct Hrun as (b & Ht & _).
  destruct Ht as [e|tmp e|tmp out e|tmp out e|tmp out js e|tmp out js e|tmp out js e
                 |tmp out js pkgs t Hlp|tmp out js pkgs done t e Hlp
                 |tmp out js pkgs done t r Hlp].
  1: constructor; [split; intros path []|]; constructor; [split; intros path []|];
     constructor.
  1-6: match goal with
       | |- Forall (touchesOnly (created ?t) _) _ =>
           replace (created t) with (Some tmp) by reflexivity;
           replace (listedOrNone t) with (@nil string) by reflexivity
       end; apply (touched_setup_all (H := H) (vers := vers)); repeat constructor.
  all: specialize (Hv pkgs (proj2 (proj2 (listed_shows H _ _ _ _ _ _))));
    match goal with
    | |- Forall (touchesOnly (created ?t) _) _ =>
        replace (created t) with (Some tmp) by reflexivity;
        replace (listedOrNone t) with pkgs
          by (unfold listedOrNone;
              now rewrite (proj2 (proj2 (listed_shows H _ _ _ _ _ _))))
    end;
    (apply Forall_app; split;
     [apply (touched_setup_all (H := H) (vers := vers)), listed_events|]).
  - exact (touched_loop Hlp Hv).
  - apply Forall_app; split; [exact (touched_loop Hlp Hv)|].
    constructor; [split; [intros path [<- | []]; right; right; right; now left
                         |intros path []]|].
    constructor; [split; intros path []|]. constructor.
  - apply Forall_app; split; [exact (touched_loop Hlp Hv)|].
    constructor; [split; [intros path [<- | []]; right; right; right; now left
                         |intros path []]|].
    constructor; [split; [intros path []|intros path [<- | []]; reflexivity]|].
    constructor.
Qed.
End Frame.

(** The process touches only the temporary directory and its outputs.
    [os.MkdirTemp] makes the temporary directory, [os.MkdirAll] makes a
    directory and its missing parents, [os.WriteFile] makes or writes
    a file, [os.RemoveAll] removes a path and what is below it.  In
    every run, a path that the process itself makes or writes is the
    temporary directory or one of: [assets], [assets/wasm_exec.js],
    [index.html], and for a directory of the listing that is not
    excluded [example], [example/dir], [example/dir/index.html],
    [example/dir/dir.wasm]; and what it removes is the temporary
    directory. *)
Theorem process_writes_only_its_outputs {T : Text} {S : Type} (H : Host S)
    vers s o s' t :
  gen H vers s = (o, s', t) ->
  (forall pkgs, listing t = Some pkgs -> Forall (fun d => entryName d = true) pkgs) ->
  Forall (fun e =>
            (forall path, In path (mutated e) ->
                          created t = Some path \/ In path (outputs (listedOrNone t)))
            /\ (forall path, In path (removed e) -> created t = Some path)) t.
Proof.
  intros Hrun Hv. exact (gen_touches H _ _ Hrun Hv).
Qed.

Lemma process_writes_only_its_outputs_witness :
  Forall (fun e =>
            (forall path, In path (mutated e) ->
               created (runOf (scripted "v1.2" ["a"; "sketch"] [] never) "main") = Some path
               \/ In path (outputs (listedOrNone
                                      (runOf (scripted "v1.2" ["a"; "sketch"] [] never)
                                         "main"))))
            /\ (forall path, In path (removed e) ->
                  created (runOf (scripted "v1.2" ["a"; "sketch"] [] never) "main")
                  = Some path))
    (runOf (scripted "v1.2" ["a"; "sketch"] [] never) "main").
Proof.
  apply (@process_writes_only_its_outputs asciiText unit
           (scripted "v1.2" ["a"; "sketch"] [] never) "main" tt (Returned tt) tt).
  - vm_compute. reflexivity.
  - intros pkgs E. vm_compute in E. injection E as <-. repeat constructor.
Defined.

(** ** The end of a run that returns *)

Lemma bind_returns {S A B} (m : @M S A) (k : A -> @M S B) s b s' t :
  bind m k s = (Returned b, s', t) ->
  exists a s1 t1 t2,
    m s = (Returned a, s1, t1) /\ k a s1 = (Returned b, s', t2) /\ t = (t1 ++ t2)%list.
Proof.
  unfold bind. destruct (m s) as [[[a|code] s1] t1]; [|discriminate].
  destruct (k a s1) as [[o2 s2] t2] eqn:Hk. intros E. injection E as -> -> <-.
  now exists a, s1, t1, t2.
Qed.

Section Returns.
Context {T : Text} {S : Type} (H : Host S).

(** A run that returns ends with the removal of the directory it
    created, in the state that removal leaves. *)
Lemma gen_returns vers s s' t :
  gen H vers s = (Returned tt, s', t) ->
  exists tmp s1 r t1,
    RemoveAll H tmp s1 = (r, s')
    /\ t = (EvMkdirTemp "" "go-p5-gen-" (inl tmp) :: t1 ++ [EvRemoveAll tmp r])%list.
Proof.
  intros Hrun. unfold gen in Hrun.
  apply bind_returns in Hrun. destruct Hrun as (r0 & s0 & t0 & t0' & Hm & Hrun & ->).
  unfold os_MkdirTemp, call in Hm. destruct (MkdirTemp H "" "go-p5-gen-" s) as [r1 s1'].
  injection Hm as <- <- <-.
  apply bind_returns in Hrun. destruct Hrun as (tmp & s1 & t1 & t1' & Hm & Hrun & ->).
  destruct r1 as [tmp'|e]; [|discriminate]. injection Hm as <- <- <-.
  apply bind_returns in Hrun. destruct Hrun as ([] & s2 & t2 & t2' & _ & Hrun & ->).
  apply bind_returns in Hrun. destruct Hrun as (r & s3 & t3 & t3' & Hm & Hrun & ->).
  unfold os_RemoveAll, call in Hm. destruct (RemoveAll H tmp' s2) as [r' s3'] eqn:Hrm.
  injection Hm as <- <- <-. injection Hrun as <- <-.
  exists tmp', s2, r', t2. split; [exact Hrm|].
  cbn [app]. reflexivity.
Qed.

(** The loop that comes to its end made the calls of [loopCalls]. *)
Lemma LoopTrace_calls tmp pkgs done t :
  LoopTrace H tmp pkgs (Some done) t ->
  exists wasms,
    length wasms = length (filter notExcluded pkgs) /\ t = loopCalls H tmp pkgs wasms.
Proof.
  remember (Some done) as r eqn:Er. intros Hl. revert done Er.
  induction Hl as [|dir rest r t Hex _ IH|dir rest wasm r t Hex _ IH|dir rest t Hex Hf];
    intros done Er; cbn [filter loopCalls]; unfold notExcluded at 1 || idtac;
    try rewrite Hex; cbn [negb].
  - now exists [].
  - destruct (IH done Er) as (ws & Hlen & ->). now exists ws.
  - destruct r as [done'|]; [|discriminate].
    destruct (IH done' eq_refl) as (ws & Hlen & ->).
    exists (wasm :: ws). cbn [length]. now rewrite Hlen.
  - discriminate.
Qed.
End Returns.

(** On a host whose [os.RemoveAll], when it returns no error, leaves a
    state in which the path does not exist ([exists_] telling what
    exists): after a run that returns and whose removal returned no
    error, the temporary directory that [os.MkdirTemp] returned does not
    exist; the removal is the last call of the run. *)
Theorem temporary_directory_is_gone {T : Text} {S : Type} (H : Host S)
    (exists_ : S -> string -> bool) vers s s' t :
  (forall path s1 s2, RemoveAll H path s1 = (None, s2) -> exists_ s2 path = false) ->
  gen H vers s = (Returned tt, s', t) ->
  exists tmp r,
    created t = Some tmp
    /\ last t (EvLog "") = EvRemoveAll tmp r
    /\ (r = None -> exists_ s' tmp = false).
Proof.
  intros Hrm Hrun.
  destruct (gen_returns H _ _ Hrun) as (tmp & s1 & r & t1 & Hlast & ->).
  exists tmp, r. split; [reflexivity|]. split.
  - change (?a :: ?l ++ [?x])%list with ((a :: l) ++ [x])%list. apply last_last.
  - intros ->. exact (Hrm _ _ _ Hlast).
Qed.

Lemma RemoveAll_paths pkgs path s1 s2 :
  RemoveAll (pathsHost pkgs) path s1 = (None, s2) -> pathExists s2 path = false.
Proof.
  cbn [RemoveAll pathsHost]. intros E. injection E as <-. unfold pathExists.
  induction s1 as [|q s1 IH]; [reflexivity|].
  cbn [filter]. destruct (below path q) eqn:Hb; cbn [negb]; [exact IH|].
  cbn [existsb]. rewrite IH, orb_false_r.
  unfold below in Hb. apply orb_false_iff in Hb. destruct Hb as [Hb _].
  now rewrite String.eqb_sym.
Qed.

Lemma temporary_directory_is_gone_witness :
  exists tmp r,
    created (snd (gen (T := asciiText) (pathsHost ["a"; "sketch"]) "main"
                    ["/usr/local/go/misc/wasm/wasm_exec.js"]))
    = Some tmp
    /\ last (snd (gen (T := asciiText) (pathsHost ["a"; "sketch"]) "main"
                    ["/usr/local/go/misc/wasm/wasm_exec.js"])) (EvLog "")
       = EvRemoveAll tmp r
    /\ (r = None ->
        pathExists
          ["index.html"; "example/a/a.wasm"; "example/a/index.html"; "example";
           "example/a"; "assets/wasm_exec.js"; "assets";
           "/usr/local/go/misc/wasm/wasm_exec.js"]
          tmp = false).
Proof.
  apply (@temporary_directory_is_gone asciiText (list string)
           (pathsHost ["a"; "sketch"]) pathExists "main"
           ["/usr/local/go/misc/wasm/wasm_exec.js"]).
  - apply RemoveAll_paths.
  - vm_compute. reflexivity.
Defined.

(** The calls of a run that returns, in their order: the temporary
    directory, the clone, the revision query, the bootstrap script read
    and published, the listing with a line of the log for every entry;
    then, for every entry in the order of the listing, either the line
    that it is ignored or its seven calls (log, build, directory, page,
    read of the build output, copy, staging); then the root index page
    and the removal of the temporary directory. *)
Theorem calls_of_a_run_that_returns {T : Text} {S : Type} (H : Host S)
    vers s s' t :
  gen H vers s = (Returned tt, s', t) ->
  exists tmp out js pkgs wasms r,
    length wasms = length (filter notExcluded pkgs)
    /\ t = (listed H vers tmp out js pkgs
            ++ loopCalls H tmp pkgs wasms
            ++ [EvWriteFile "index.html"
                  (indexPage (TrimSpace out) (filter notExcluded pkgs)) 420 None;
                EvRemoveAll tmp r])%list.
Proof.
  intros Hrun. apply gen_trace in Hrun. destruct Hrun as ([|] & Ht & E); [|discriminate].
  apply GenTrace_returns in Ht.
  destruct Ht as (tmp & out & js & pkgs & loop & r & Hloop & ->).
  destruct (LoopTrace_calls Hloop) as (ws & Hlen & ->).
  now exists tmp, out, js, pkgs, ws, r.
Qed.

Lemma calls_of_a_run_that_returns_witness :
  exists tmp out js pkgs wasms r,
    length wasms = length (filter notExcluded pkgs)
    /\ runOf (scripted "v1.2" ["a"; "sketch"; "z"] [] never) "main"
       = (listed (T := asciiText) (scripted "v1.2" ["a"; "sketch"; "z"] [] never)
            "main" tmp out js pkgs
          ++ loopCalls (T := asciiText) (scripted "v1.2" ["a"; "sketch"; "z"] [] never)
               tmp pkgs wasms
          ++ [EvWriteFile "index.html"
                (@indexPage asciiText (@TrimSpace asciiText out) (filter notExcluded pkgs))
                420 None;
              EvRemoveAll tmp r])%list.
Proof.
  apply (@calls_of_a_run_that_returns asciiText unit
           (scripted "v1.2" ["a"; "sketch"; "z"] [] never) "main" tt tt).
  vm_compute. reflexivity.
Defined.

(** ** Where the outputs of an example go *)

(** For the name of a directory entry, the package name
    [filepath.Base("example/" + dir)] is [dir] itself, and the page and
    the artifact that [filepath.Join] names are [example/dir/index.html]
    and [example/dir/dir.wasm]: no cleaning of the path changes them. *)
Theorem outputs_of_an_entry dir :
  entryName dir = true ->
  Base ("example/" ++ dir) = dir
  /\ Join ["example/" ++ dir; "index.html"] = "example/" ++ dir ++ "/index.html"
  /\ Join ["example/" ++ dir; Base ("example/" ++ dir) ++ ".wasm"]
     = "example/" ++ dir ++ "/" ++ dir ++ ".wasm".
Proof.
  intros Hd. split; [exact (pkgOf_entry _ Hd)|]. split.
  - exact (pageOf_entry _ Hd).
  - exact (artifactOf_entry _ Hd).
Qed.

Lemma outputs_of_an_entry_witness :
  Base ("example/" ++ "hello") = "hello"
  /\ Join ["example/" ++ "hello"; "index.html"] = "example/" ++ "hello" ++ "/index.html"
  /\ Join ["example/" ++ "hello"; Base ("example/" ++ "hello") ++ ".wasm"]
     = "example/" ++ "hello" ++ "/" ++ "hello" ++ ".wasm".
Proof. apply (outputs_of_an_entry "hello"). reflexivity. Defined.

(** ** The root index page comes last *)

Section Last.
Context {T : Text} {S : Type} (H : Host S).

Lemma writeOf_index_listed vers tmp out js pkgs :
  existsb (writeOf "index.html") (listed H vers tmp out js pkgs) = false.
Proof.
  destruct (setup_quiet (listed_events H vers tmp out js pkgs)) as (_ & Hi & _ & _).
  exact Hi.
Qed.
End Last.

(** The root index page is written after the loop only: when a write
    of [index.html] was attempted, successful or not, the artifact of
    every directory of the listing that is not excluded has been
    staged, and the page that was given to the write lists them all. *)
Theorem index_is_written_after_every_example {T : Text} {S : Type} (H : Host S)
    vers s o s' t pkgs :
  gen H vers s = (o, s', t) ->
  listing t = Some pkgs ->
  Forall (fun d => entryName d = true) pkgs ->
  existsb (writeOf "index.html") t = true ->
  staged t
  = map (fun dir => "example/" ++ dir ++ "/" ++ dir ++ ".wasm") (filter notExcluded pkgs)
  /\ exists out r,
       queried t = Some (out, None)
       /\ In (EvWriteFile "index.html"
                (indexPage (TrimSpace out) (filter notExcluded pkgs)) 420 r) t.
Proof.
  intros Hrun Hl Hv Hw. apply gen_trace in Hrun. destruct Hrun as (b & Ht & _).
  rewrite <- (artifacts_entry Hv).
  destruct Ht as [e|tmp e|tmp out e|tmp out e|tmp out js e|tmp out js e|tmp out js e
                 |tmp out js pkgs' t Hlp|tmp out js pkgs' done t e Hlp
                 |tmp out js pkgs' done t r Hlp];
    try (cbn in Hl; discriminate);
    rewrite (proj2 (proj2 (listed_shows H _ _ _ _ _ _))) in Hl; injection Hl as ->.
  - exfalso. destruct (loop_no_index_no_removal Hlp Hv) as (Hi & _).
    rewrite existsb_app, writeOf_index_listed, Hi in Hw. discriminate.
  - pose proof (LoopTrace_done Hlp eq_refl) as ->.
    destruct (staged_loop Hlp) as (rest & E & Hr).
    rewrite (Hr ltac:(discriminate)), app_nil_r in E.
    rewrite !staged_app, staged_listed. cbn [app staged flat_map stagedBy].
    rewrite app_nil_r. split; [now symmetry|].
    exists out, (Some e). split; [apply listed_shows|].
    apply in_or_app. right. apply in_or_app. right. now left.
  - pose proof (LoopTrace_done Hlp eq_refl) as ->.
    destruct (staged_loop Hlp) as (rest & E & Hr).
    rewrite (Hr ltac:(discriminate)), app_nil_r in E.
    rewrite !staged_app, staged_listed. cbn [app staged flat_map stagedBy].
    rewrite app_nil_r. split; [now symmetry|].
    exists out, None. split; [apply listed_shows|].
    apply in_or_app. right. apply in_or_app. right. now left.
Qed.

Lemma index_is_written_after_every_example_witness :
  staged (runOf (scripted "v1.2" ["a"; "sketch"; "z"] [] never) "main")
  = map (fun dir => "example/" ++ dir ++ "/" ++ dir ++ ".wasm")
      (filter notExcluded ["a"; "sketch"; "z"])
  /\ exists out r,
       queried (runOf (scripted "v1.2" ["a"; "sketch"; "z"] [] never) "main")
       = Some (out, None)
       /\ In (EvWriteFile "index.html"
                (@indexPage asciiText (@TrimSpace asciiText out)
                   (filter notExcluded ["a"; "sketch"; "z"])) 420 r)
            (runOf (scripted "v1.2" ["a"; "sketch"; "z"] [] never) "main").
Proof.
  apply (@index_is_written_after_every_example asciiText unit
           (scripted "v1.2" ["a"; "sketch"; "z"] [] never) "main" tt (Returned tt) tt).
  - vm_compute. reflexivity.
  - vm_compute. reflexivity.
  - repeat constructor.
  - vm_compute. reflexivity.
Defined.

(** ** The title and the address in a page *)

Lemma HasPrefix_nil s : HasPrefix s "" = true.
Proof. now destruct s. Qed.

Lemma HasPrefix_append s p : HasPrefix (p ++ s) p = true.
Proof.
  induction p as [|c p IH]; cbn [append HasPrefix]; [apply HasPrefix_nil|].
  now rewrite Ascii.eqb_refl, IH.
Qed.






Lemma occurrences_le_app sub s y : occurrences sub y <= occurrences sub (s ++ y).
Proof.
  induction s as [|c s IH]; cbn [append]; [lia|].
  cbn [occurrences]. lia.
Qed.

(** [sub] occurs in what has it inside. *)
Lemma occurrences_inside sub s y : 1 <= occurrences sub (s ++ sub ++ y).
Proof.
  eapply Nat.le_trans; [|apply occurrences_le_app].
  pose proof (HasPrefix_append y sub) as Hp.
  destruct (sub ++ y); cbn [occurrences]; rewrite Hp; lia.
Qed.





















(** ** The line of a fatal error *)

(** The line of [log.Fatalf] for the format [f], which ends in the
    directive of the error. *)
Ltac told :=
  unfold fatal, Sprintf; cbn [append format operand nl extra];
  rewrite ?append_nil_r, ?append_assoc; reflexivity.

Section Told.
Context {T : Text} {S : Type} (H : Host S).

Lemma ExampleFails_told tmp dir t :
  ExampleFails H tmp dir t ->
  exists t0 e err msg,
    t = (t0 ++ [e; EvLog (logLine (msg ++ err))])%list
    /\ errorOf e = Some err /\ HasPrefix msg "could not " = true.
Proof.
  destruct 1 as [e|e|e|e|wasm e|wasm e].
  - eexists [_], _, e, ("could not build WASM " ++ Quote (exampleName dir) ++ ": ").
    split; [told|split; reflexivity].
  - eexists (compiled H tmp dir), _, e,
      ("could not create source dir " ++ Quote (exampleName dir) ++ ": ").
    split; [told|split; reflexivity].
  - eexists (compiled H tmp dir ++ [_])%list, _, e,
      ("could not write example HTML " ++ Quote (exampleName dir) ++ ": ").
    rewrite <- app_assoc. split; [told|split; reflexivity].
  - eexists (paged H tmp dir), _, e,
      ("could not read WASM binary " ++ Quote (exampleName dir) ++ ": ").
    split; [told|split; reflexivity].
  - eexists (paged H tmp dir ++ [_])%list, _, e,
      ("could not write WASM binary " ++ Quote (exampleName dir) ++ ": ").
    rewrite <- app_assoc. split; [told|split; reflexivity].
  - eexists (copied H tmp dir wasm), _, e, "could not add WASM binary to repository: ".
    split; [told|split; reflexivity].
Qed.

Lemma LoopTrace_told tmp pkgs t :
  LoopTrace H tmp pkgs None t ->
  exists t0 e err msg,
    t = (t0 ++ [e; EvLog (logLine (msg ++ err))])%list
    /\ errorOf e = Some err /\ HasPrefix msg "could not " = true.
Proof.
  intros Hl. remember None as r eqn:Hr.
  induction Hl as [|dir rest r t Hex _ IH|dir rest wasm r t Hex _ IH|dir rest t Hex Hf].
  - discriminate.
  - destruct (IH Hr) as (t0 & e & err & msg & -> & He & Hm).
    exists (EvLog (logLine (Sprintf "ignoring %s..." [dir])) :: t0), e, err, msg.
    repeat split; assumption.
  - destruct r as [done|]; [discriminate|].
    destruct (IH eq_refl) as (t0 & e & err & msg & -> & He & Hm).
    exists (processed H tmp dir wasm ++ t0)%list, e, err, msg.
    rewrite <- app_assoc. repeat split; assumption.
  - exact (ExampleFails_told Hf).
Qed.
End Told.

(** A run that exits tells why: the last line of its log is
    [gen-p5: could not ...] and ends with the error that the last call,
    the one that failed, returned. *)
Theorem fatal_line_tells_the_error {T : Text} {S : Type} (H : Host S)
    vers s n s' t :
  gen H vers s = (Exited n, s', t) ->
  exists t0 e err msg,
    t = (t0 ++ [e; EvLog (logLine (msg ++ err))])%list
    /\ errorOf e = Some err /\ HasPrefix msg "could not " = true.
Proof.
  intros Hrun. apply gen_trace in Hrun. destruct Hrun as (b & Ht & E).
  destruct Ht as [e|tmp e|tmp out e|tmp out e|tmp out js e|tmp out js e|tmp out js e
                 |tmp out js pkgs t Hl|tmp out js pkgs done t e Hl
                 |tmp out js pkgs done t r Hl].
  - eexists [], _, e, "could not create tmp dir: ". split; [told|split; reflexivity].
  - eexists [_], _, e, "could not initialize module: ". split; [told|split; reflexivity].
  - eexists (cloned vers tmp), _, e,
      ("could not retrieve git revision:" ++ nl ++ TrimSpace out ++ nl ++ "err: ").
    split; [unfold fatal; rewrite Sprintf_no_revision, !append_assoc; reflexivity
          |split; reflexivity].
  - eexists (described vers tmp out), _, e, "could not find WASM bootstrap code: ".
    split; [told|split; reflexivity].
  - eexists (loaded H vers tmp out js), _, e, "could not create 'assets': ".
    split; [told|split; reflexivity].
  - eexists (loaded H vers tmp out js ++ [_])%list, _, e, "could not write wasm_exec.js: ".
    rewrite <- app_assoc. split; [told|split; reflexivity].
  - eexists (published H vers tmp out js), _, e, "could not read dir: ".
    split; [told|split; reflexivity].
  - destruct (LoopTrace_told Hl) as (t0 & e & err & msg & -> & He & Hm).
    exists (listed H vers tmp out js pkgs ++ t0)%list, e, err, msg.
    rewrite <- app_assoc. repeat split; assumption.
  - eexists (listed H vers tmp out js pkgs ++ t)%list, _, e, "could not create root index: ".
    rewrite <- app_assoc. split; [told|split; reflexivity].
  - discriminate.
Qed.

Lemma fatal_line_tells_the_error_witness :
  exists t0 e err msg,
    runOf (scripted "v1.2" ["a"; "b"] [] (compiling "b")) "main"
    = (t0 ++ [e; EvLog (logLine (msg ++ err))])%list
    /\ errorOf e = Some err /\ HasPrefix msg "could not " = true.
Proof.
  apply (@fatal_line_tells_the_error asciiText unit
           (scripted "v1.2" ["a"; "b"] [] (compiling "b")) "main" tt 1 tt).
  vm_compute. reflexivity.
Defined.

(** ** The wrapper page *)



(** ** A folder with [a], [b] and [sketch] *)

(** C7: when the example folder holds [a], [b] and [sketch], a run
    that returns stages exactly [example/a/a.wasm] and
    [example/b/b.wasm], in this order, each written with what was read
    from the build output [tmp/bin/a.wasm], [tmp/bin/b.wasm]; and the
    root index page it writes has, between the heading and the footer,
    the list item of [a] and the list item of [b] and no other. *)
Theorem three_examples_two_staged {T : Text} {S : Type} (H : Host S)
    vers s s' t :
  gen H vers s = (Returned tt, s', t) ->
  listing t = Some ["a"; "b"; "sketch"] ->
  staged t = ["example/a/a.wasm"; "example/b/b.wasm"]
  /\ (exists tmp wa wb,
        created t = Some tmp
        /\ In (EvReadFile (binOf tmp "a") (inl wa)) t
        /\ written "example/a/a.wasm" t = Some wa
        /\ In (EvReadFile (binOf tmp "b") (inl wb)) t
        /\ written "example/b/b.wasm" t = Some wb)
  /\ exists out,
       queried t = Some (out, None)
       /\ written "index.html" t
          = Some (rootHeadBefore ++ TrimSpace out ++ rootHeadAfter
                  ++ ("<li><a href=" ++ Quote "https://go-p5.github.io/example/a/index.html"
                      ++ ">a</a></li>" ++ nl)
                  ++ ("<li><a href=" ++ Quote "https://go-p5.github.io/example/b/index.html"
                      ++ ">b</a></li>" ++ nl)
                  ++ rootFooter).
Proof.
  intros Hrun Hl. pose proof Hrun as Hrun'.
  apply gen_trace in Hrun. destruct Hrun as ([|] & Ht & E); [|discriminate].
  apply GenTrace_returns in Ht.
  destruct Ht as (tmp & out & js & pkgs & loop & r & Hloop & ->).
  rewrite (proj2 (proj2 (listed_shows H _ _ _ _ _ _))) in Hl. injection Hl as ->.
  destruct (LoopTrace_calls Hloop) as (ws & Hlen & ->).
  destruct ws as [|wa [|wb [|w ws]]]; try discriminate Hlen. clear Hlen Hloop.
  split; [|split].
  - rewrite !staged_app, staged_listed. reflexivity.
  - exists tmp, wa, wb. split; [apply listed_shows|].
    split; [|split; [reflexivity|split; [|reflexivity]]].
    + apply in_or_app. right. apply in_or_app. left.
      cbn [loopCalls]. change (excluded "a") with false. cbn iota.
      apply in_or_app. left. unfold processed, copied. apply in_or_app. left.
      apply in_or_app. right. now left.
    + apply in_or_app. right. apply in_or_app. left.
      cbn [loopCalls]. change (excluded "a") with false. change (excluded "b") with false.
      cbn iota. apply in_or_app. right.
      apply in_or_app. left. unfold processed, copied. apply in_or_app. left.
      apply in_or_app. right. now left.
  - exists out. split; [apply listed_shows|].
    rewrite !written_app. cbn [written String.eqb Ascii.eqb Bool.eqb].
    unfold indexPage, listItems.
    change (filter notExcluded ["a"; "b"; "sketch"]) with ["a"; "b"].
    cbn [map String.concat].
    change (pkgOf "a") with "a". change (pkgOf "b") with "b".
    rewrite rootHeader_revision, !listItem_entry, !append_assoc. reflexivity.
Qed.

Lemma three_examples_two_staged_witness :
  staged (runOf (scripted "v1.2" ["a"; "b"; "sketch"] [] never) "main")
  = ["example/a/a.wasm"; "example/b/b.wasm"]
  /\ (exists tmp wa wb,
        created (runOf (scripted "v1.2" ["a"; "b"; "sketch"] [] never) "main") = Some tmp
        /\ In (EvReadFile (binOf tmp "a") (inl wa))
             (runOf (scripted "v1.2" ["a"; "b"; "sketch"] [] never) "main")
        /\ written "example/a/a.wasm"
             (runOf (scripted "v1.2" ["a"; "b"; "sketch"] [] never) "main") = Some wa
        /\ In (EvReadFile (binOf tmp "b") (inl wb))
             (runOf (scripted "v1.2" ["a"; "b"; "sketch"] [] never) "main")
        /\ written "example/b/b.wasm"
             (runOf (scripted "v1.2" ["a"; "b"; "sketch"] [] never) "main") = Some wb)
  /\ exists out,
       queried (runOf (scripted "v1.2" ["a"; "b"; "sketch"] [] never) "main")
       = Some (out, None)
       /\ written "index.html" (runOf (scripted "v1.2" ["a"; "b"; "sketch"] [] never) "main")
          = Some (rootHeadBefore ++ @TrimSpace asciiText out ++ rootHeadAfter
                  ++ ("<li><a href="
                      ++ @Quote asciiText "https://go-p5.github.io/example/a/index.html"
                      ++ ">a</a></li>" ++ nl)
                  ++ ("<li><a href="
                      ++ @Quote asciiText "https://go-p5.github.io/example/b/index.html"
                      ++ ">b</a></li>" ++ nl)
                  ++ rootFooter).
Proof.
  apply (@three_examples_two_staged asciiText unit
           (scripted "v1.2" ["a"; "b"; "sketch"] [] never) "main" tt tt);
    vm_compute; reflexivity.
Defined.

(** ** The message of a failed revision query *)

(** C8, as the program has it: when the revision query returns an
    error the run exits with status 1, and the last thing it does is to
    log the line of [log.Fatalf], which has the output of the query
    with the white space around it removed ([fetchRevision] returns
    [strings.TrimSpace] of it), then the error. *)
Theorem failed_revision_query_is_fatal {T : Text} {S : Type} (H : Host S)
    vers s o s' t out e :
  gen H vers s = (o, s', t) ->
  queried t = Some (out, Some e) ->
  o = Exited 1
  /\ last t (EvLog "")
     = EvLog (logLine ("could not retrieve git revision:" ++ nl ++ TrimSpace out
                       ++ nl ++ "err: " ++ e))
  /\ 1 <= occurrences (TrimSpace out)
            (logLine ("could not retrieve git revision:" ++ nl ++ TrimSpace out
                      ++ nl ++ "err: " ++ e)).
Proof.
  intros Hrun Hq. apply gen_trace in Hrun. destruct Hrun as (b & Ht & ->).
  destruct Ht as [e1|tmp e1|tmp out1 e1|tmp out1 e1|tmp out1 js e1|tmp out1 js e1
                 |tmp out1 js e1|tmp out1 js pkgs loop Hloop
                 |tmp out1 js pkgs done loop e1 Hloop
                 |tmp out1 js pkgs done loop r Hloop];
    try (rewrite (proj1 (proj2 (listed_shows H _ _ _ _ _ _))) in Hq; discriminate);
    try (unfold loaded, published, described, cloned in Hq; cbn [app queried] in Hq;
         discriminate).
  unfold cloned in Hq. cbn [app queried] in Hq. injection Hq as -> ->.
  split; [reflexivity|]. split.
  - unfold cloned, fatal. cbn [app last]. now rewrite Sprintf_no_revision.
  - unfold logLine.
    replace ("gen-p5: "
             ++ ("could not retrieve git revision:" ++ nl ++ TrimSpace out
                 ++ nl ++ "err: " ++ e)
             ++ (if HasSuffix ("could not retrieve git revision:" ++ nl ++ TrimSpace out
                               ++ nl ++ "err: " ++ e) nl then "" else nl))
      with (("gen-p5: could not retrieve git revision:" ++ nl)
            ++ TrimSpace out
            ++ (nl ++ "err: " ++ e)
            ++ (if HasSuffix ("could not retrieve git revision:" ++ nl ++ TrimSpace out
                              ++ nl ++ "err: " ++ e) nl then "" else nl))
      by (rewrite !append_assoc; reflexivity).
    apply occurrences_inside.
Qed.

Lemma failed_revision_query_is_fatal_witness :
  @Exited unit 1 = Exited 1
  /\ last (runOf (scripted ("  fatal: No names found" ++ nl) [] [] describing) "main")
       (EvLog "")
     = EvLog (logLine ("could not retrieve git revision:" ++ nl
                       ++ @TrimSpace asciiText ("  fatal: No names found" ++ nl)
                       ++ nl ++ "err: " ++ "exit status 128"))
  /\ 1 <= occurrences (@TrimSpace asciiText ("  fatal: No names found" ++ nl))
            (logLine ("could not retrieve git revision:" ++ nl
                      ++ @TrimSpace asciiText ("  fatal: No names found" ++ nl)
                      ++ nl ++ "err: " ++ "exit status 128")).
Proof.
  apply (@failed_revision_query_is_fatal asciiText unit
           (scripted ("  fatal: No names found" ++ nl) [] [] describing) "main" tt
           (Exited 1) tt).
  - vm_compute. reflexivity.
  - vm_compute. reflexivity.
Defined.

(** C8, as the claim has it, fails: the query prints
    [  fatal: No names found] and a newline and returns an error; the
    run exits with the line of [log.Fatalf] as its last event, and the
    output as the query printed it occurs nowhere in that line (the two
    blanks before [fatal] are gone). *)
Lemma raw_output_is_not_in_the_message :
  queried (runOf (scripted ("  fatal: No names found" ++ nl) [] [] describing) "main")
  = Some ("  fatal: No names found" ++ nl, Some "exit status 128")
  /\ fst (gen (T := asciiText) (scripted ("  fatal: No names found" ++ nl) [] [] describing)
            "main" tt)
     = (Exited 1, tt)
  /\ exists line,
       last (runOf (scripted ("  fatal: No names found" ++ nl) [] [] describing) "main")
         (EvLog "")
       = EvLog line
       /\ occurrences ("  fatal: No names found" ++ nl) line = 0.
Proof.
  split; [vm_compute; reflexivity|]. split; [vm_compute; reflexivity|].
  eexists. split; vm_compute; reflexivity.
Qed.

(** ** A target variable in the environment of the process *)

(** C1 fails on the code.  The process runs with [GOOS=linux] in its
    environment; the folder holds the example [a].  The compile command
    is given [GOBIN], [GOOS=js], [GOARCH=wasm] and then the environment
    of the process, [os/exec] keeps the last entry of a key, and the
    compiler is started with [GOOS=linux]: the target variable does not
    take precedence. *)
Theorem inherited_GOOS_reaches_the_compiler :
  map Env (compileCmds (runOf (scripted "v1.2" ["a"] ["HOME=/root"; "GOOS=linux"] never)
                          "main"))
  = [Some ["GOBIN=/tmp/go-p5-gen-1/bin"; "GOOS=js"; "GOARCH=wasm";
           "HOME=/root"; "GOOS=linux"]]
  /\ map (childEnv ["HOME=/root"; "GOOS=linux"])
       (compileCmds (runOf (scripted "v1.2" ["a"] ["HOME=/root"; "GOOS=linux"] never)
                       "main"))
     = [["GOBIN=/tmp/go-p5-gen-1/bin"; "GOARCH=wasm"; "HOME=/root"; "GOOS=linux"]].
Proof. split; vm_compute; reflexivity. Qed.

(** ** The temporary directory and the rest of the file system *)

(** C9, as the program has it.  After a run that returns and whose
    removal reported no error, the temporary directory does not exist
    (on a host whose [os.RemoveAll], when it returns no error, leaves
    the path not existing; [exists_] tells what exists); the removal is
    the last call of the run.  And what the process itself makes,
    writes or removes by its own calls is the temporary directory and
    the outputs -- [assets], [assets/wasm_exec.js], [index.html], and
    for a directory of the listing that is not excluded [example],
    [example/dir], [example/dir/index.html], [example/dir/dir.wasm] --
    with only the temporary directory removed.  What the child
    processes change is the host's. *)
Theorem temporary_directory_is_removed_and_outputs_only {T : Text} {S : Type}
    (H : Host S) (exists_ : S -> string -> bool) vers s s' t :
  (forall path s1 s2, RemoveAll H path s1 = (None, s2) -> exists_ s2 path = false) ->
  (forall pkgs, listing t = Some pkgs -> Forall (fun d => entryName d = true) pkgs) ->
  gen H vers s = (Returned tt, s', t) ->
  exists tmp r,
    created t = Some tmp
    /\ last t (EvLog "") = EvRemoveAll tmp r
    /\ (r = None -> exists_ s' tmp = false)
    /\ Forall (fun e =>
                 (forall path, In path (mutated e) ->
                               path = tmp \/ In path (outputs (listedOrNone t)))
                 /\ (forall path, In path (removed e) -> path = tmp)) t.
Proof.
  intros Hrm Hv Hrun. pose proof (gen_touches H _ _ Hrun Hv) as Ht.
  destruct (gen_returns H _ _ Hrun) as (tmp & s1 & r & t1 & Hlast & ->).
  exists tmp, r. split; [reflexivity|]. split; [|split].
  - change (?a :: ?l ++ [?x])%list with ((a :: l) ++ [x])%list. apply last_last.
  - intros ->. exact (Hrm _ _ _ Hlast).
  - eapply Forall_impl; [|exact Ht]. intros e [Hm Hr]. split.
    + intros path Hp. destruct (Hm path Hp) as [E | Ho]; [|now right].
      left. cbn [created] in E. now injection E.
    + intros path Hp. specialize (Hr path Hp). cbn [created] in Hr. now injection Hr.
Qed.

Lemma temporary_directory_is_removed_and_outputs_only_witness :
  exists tmp r,
    created (snd (gen (T := asciiText) (pathsHost ["a"; "sketch"]) "main"
                    ["/usr/local/go/misc/wasm/wasm_exec.js"]))
    = Some tmp
    /\ last (snd (gen (T := asciiText) (pathsHost ["a"; "sketch"]) "main"
                    ["/usr/local/go/misc/wasm/wasm_exec.js"])) (EvLog "")
       = EvRemoveAll tmp r
    /\ (r = None ->
        pathExists
          ["index.html"; "example/a/a.wasm"; "example/a/index.html"; "example";
           "example/a"; "assets/wasm_exec.js"; "assets";
           "/usr/local/go/misc/wasm/wasm_exec.js"]
          tmp = false)
    /\ Forall (fun e =>
                 (forall path, In path (mutated e) ->
                    path = tmp
                    \/ In path
                         (outputs
                            (listedOrNone
                               (snd (gen (T := asciiText) (pathsHost ["a"; "sketch"]) "main"
                                       ["/usr/local/go/misc/wasm/wasm_exec.js"])))))
                 /\ (forall path, In path (removed e) -> path = tmp))
         (snd (gen (T := asciiText) (pathsHost ["a"; "sketch"]) "main"
                 ["/usr/local/go/misc/wasm/wasm_exec.js"])).
Proof.
  apply (@temporary_directory_is_removed_and_outputs_only asciiText (list string)
           (pathsHost ["a"; "sketch"]) pathExists "main"
           ["/usr/local/go/misc/wasm/wasm_exec.js"]).
  - apply RemoveAll_paths.
  - intros pkgs E. vm_compute in E. injection E as <-. repeat constructor.
  - vm_compute. reflexivity.
Defined.

(** C9, as the claim has it, fails.  In a repository, staging an
    artifact changes the index of the repository: after a run that
    returns, with the temporary directory gone, [.git/index] is there,
    which was not there before, is not in the temporary directory and
    is none of the outputs. *)
Lemma staging_changes_the_repository :
  fst (gen (T := asciiText) (repoHost ["a"]) "main"
         ["/usr/local/go/misc/wasm/wasm_exec.js"])
  = (Returned tt,
     ["index.html"; ".git/index"; "example/a/a.wasm"; "example/a/index.html";
      "example"; "example/a"; "assets/wasm_exec.js"; "assets";
      "/usr/local/go/misc/wasm/wasm_exec.js"])
  /\ created (snd (gen (T := asciiText) (repoHost ["a"]) "main"
                     ["/usr/local/go/misc/wasm/wasm_exec.js"]))
     = Some "/tmp/go-p5-gen-1"
  /\ pathExists ["/usr/local/go/misc/wasm/wasm_exec.js"] ".git/index" = false
  /\ below "/tmp/go-p5-gen-1" ".git/index" = false
  /\ existsb (String.eqb ".git/index") (outputs ["a"]) = false.
Proof. repeat split; vm_compute; reflexivity. Qed.
